(** * SimulaAI front end: the training-session controller of [page.tsx]

    A shallow embedding of the React components that make up the session
    controller ([SimulationLayout] with its [handleRefineSubmit] handler
    and its three toolbar buttons, and [DashboardContainer] with its two
    effects and four WebSocket handlers), followed by the properties of
    the controller.  [Home] and [ChatbotEntry] only produce the
    [simulation] prop the layout is mounted with.

    React state is a record per component and a handler is a function on
    the records.  The setters a handler calls are applied in one batch, and
    the render that follows re-runs the effects whose dependency arrays
    changed, before the next event.  The browser (sockets, pending fetches,
    the console, the refine input box) is explicit state as well.
    [handleRefineSubmit] is cut at its awaits: from the submit to the first
    fetch, from the plan response to the second fetch, from the apply
    response to the end; a response and the reading of its JSON body are one
    event, the handler doing nothing observable between the two.
    [resetTrigger], a JavaScript number that only ever counts resets, is an
    unbounded natural number. *)

From Stdlib Require Import String Ascii List Bool Arith NArith ZArith QArith Lia.
From stdpp Require Import base option list.
Import ListNotations.
Local Open Scope string_scope.
Local Open Scope list_scope.
Set Warnings "-register-all".

(** ** JavaScript values as [JSON.parse] and [response.json()] produce them *)

Inductive JsValue : Type :=
| JNull
| JBool (b : bool)
| JNum (q : Q)
| JStr (s : string)
| JArr (items : list JsValue)
| JObj (fields : list (string * JsValue)).

(** The result of a property read: [None] is [undefined]. *)
Definition JsProp : Type := option JsValue.

Fixpoint assoc (k : string) (fields : list (string * JsValue)) : JsProp :=
  match fields with
  | [] => None
  | (k', v) :: rest => if String.eqb k k' then Some v else assoc k rest
  end.

(** [v.k] for the property names the components read ([episode], [status],
    [error], [edits], [length], [simulation_id], [model_xml]).  The outer
    [None] is the TypeError of a read on [null]. *)
Definition get_prop (v : JsValue) (k : string) : option JsProp :=
  match v with
  | JNull => None
  | JObj fields => Some (assoc k fields)
  | JArr items =>
      Some (if String.eqb k "length"
            then Some (JNum (inject_Z (Z.of_nat (List.length items))))
            else None)
  | JStr s =>
      Some (if String.eqb k "length"
            then Some (JNum (inject_Z (Z.of_nat (String.length s))))
            else None)
  | JBool _ | JNum _ => Some None
  end.

(** JavaScript truthiness, as tested by [!x] and [if (x)]. *)
Definition truthy (p : JsProp) : bool :=
  match p with
  | None => false
  | Some JNull => false
  | Some (JBool b) => b
  | Some (JNum q) => negb (Qeq_bool q 0)
  | Some (JStr s) => negb (String.eqb s "")
  | Some (JArr _) | Some (JObj _) => true
  end.

(** [p === "..."] against a string literal. *)
Definition strict_eq_str (p : JsProp) (lit : string) : bool :=
  match p with
  | Some (JStr s) => String.eqb s lit
  | _ => false
  end.

(** [p === 0]. *)
Definition strict_eq_zero (p : JsProp) : bool :=
  match p with
  | Some (JNum q) => Qeq_bool q 0
  | _ => false
  end.

(** The comparison React applies to the entries of a dependency array.
    Arrays and objects are compared by content here, the embedding having
    no references; the one handler that replaces [simulation_id] bumps
    [resetTrigger] in the same commit, which decides the comparison on its
    own. *)
Fixpoint js_same (a b : JsValue) : bool :=
  match a, b with
  | JNull, JNull => true
  | JBool x, JBool y => Bool.eqb x y
  | JNum x, JNum y => Qeq_bool x y
  | JStr x, JStr y => String.eqb x y
  | JArr xs, JArr ys =>
      (fix all2 (l1 l2 : list JsValue) : bool :=
         match l1, l2 with
         | [], [] => true
         | x :: l1', y :: l2' => js_same x y && all2 l1' l2'
         | _, _ => false
         end) xs ys
  | JObj xs, JObj ys =>
      (fix all2 (l1 l2 : list (string * JsValue)) : bool :=
         match l1, l2 with
         | [], [] => true
         | (k1, x) :: l1', (k2, y) :: l2' =>
             String.eqb k1 k2 && js_same x y && all2 l1' l2'
         | _, _ => false
         end) xs ys
  | _, _ => false
  end.

Definition prop_same (a b : JsProp) : bool :=
  match a, b with
  | None, None => true
  | Some x, Some y => js_same x y
  | _, _ => false
  end.

(** ** The data of the components *)

(** [interface Simulation]: the fields hold whatever the API sent. *)
Record Simulation : Type := mkSimulation {
  simulation_id : JsProp;
  model_xml : JsProp;
  xml_key : JsProp
}.

(** The texts [setStatusMessage] is called with, one constructor per
    literal or template. *)
Inductive StatusMessage : Type :=
| ConnectingToServer                 (* Connecting to training server... *)
| TrainingStarted                    (* Training started... *)
| TrainingEpisode (episode : JsValue) (* Training... Episode: ${episode} *)
| TrainingComplete                   (* Training Complete! *)
| ErrorMessage (error : JsProp)      (* Error: ${error} *)
| ConnectionError                    (* Connection error. Is the server running? *)
| ConnectionLost.                    (* Training connection lost. *)

(** [statusMessage.startsWith("Training")]. *)
Definition startsWith_Training (m : StatusMessage) : bool :=
  match m with
  | TrainingStarted | TrainingEpisode _ | TrainingComplete | ConnectionLost => true
  | ConnectingToServer | ErrorMessage _ | ConnectionError => false
  end.

Section StatusText.

(** The text of a status message, for any rendering [ToString] of a value
    inside a template literal. *)
Variable ToString : JsValue -> string.

Definition status_text (m : StatusMessage) : string :=
  match m with
  | ConnectingToServer => "Connecting to training server..."
  | TrainingStarted => "Training started..."
  | TrainingEpisode e => "Training... Episode: " ++ ToString e
  | TrainingComplete => "Training Complete!"
  | ErrorMessage (Some e) => "Error: " ++ ToString e
  | ErrorMessage None => "Error: undefined"
  | ConnectionError => "Connection error. Is the server running?"
  | ConnectionLost => "Training connection lost."
  end.

End StatusText.

Inductive ReadyState : Type := CONNECTING | OPEN | CLOSING | CLOSED.

(** One [new WebSocket(...)] together with what its handlers closed over
    in the render that created it. *)
Record WebSocket : Type := mkWebSocket {
  url_id : JsProp;                     (* ws://localhost:8000/ws/train/${simulationId} *)
  readyState : ReadyState;
  seen_isRunning : bool;               (* isRunning inside onopen *)
  seen_statusMessage : StatusMessage   (* statusMessage inside onclose *)
}.

Inductive HttpRequest : Type :=
| PlanEdits (prompt : string) (key : JsProp)     (* POST /simulation/plan_edits *)
| ApplyEdits (key : JsProp) (edits : JsProp).    (* POST /simulation/apply_edits *)

(** How an awaited [fetch] settles: the promise rejects, or a response
    arrives with its [ok] flag and the outcome of [.json()] ([None]: the
    body is not JSON and [.json()] rejects). *)
Inductive FetchResult : Type :=
| Rejected
| Responded (ok : bool) (body : option JsValue).

Inductive Awaiting : Type := AwaitPlan | AwaitApply.

(** A suspended [handleRefineSubmit]: the request it awaits and the
    [currentSim] it closed over. *)
Record Pending : Type := mkPending {
  p_req : nat;
  p_stage : Awaiting;
  p_sim : Simulation
}.

Inductive ConsoleEntry : Type :=
| LogPlanning (key : JsProp) (prompt : string)
| LogReceivedPlan (edits : JsProp)
| LogNoEdits
| LogApplying (count : JsProp)
| ErrRefining
| LogWsConnected
| ErrParseWs
| ErrWs
| LogWsDisconnected.

(** State of [SimulationLayout] (the two sidebar toggles play no part). *)
Record SimulationLayout : Type := mkLayout {
  currentSim : Simulation;
  isSimRunning : bool;
  resetTrigger : N;
  isRefining : bool
}.

(** State of [DashboardContainer]: [data], the [ws] ref, [statusMessage],
    and the cleanup function its connection effect last returned (the
    socket that function closes). *)
Record DashboardContainer : Type := mkDashboard {
  data : list JsValue;
  ws : option nat;
  statusMessage : StatusMessage;
  cleanup : option nat
}.

(** What lives outside React: the refine input box, every socket created
    so far, the command frames put on the wire (socket, command), the
    suspended refine handlers, the HTTP requests issued, the console. *)
Record Browser : Type := mkBrowser {
  input_value : string;
  sockets : list WebSocket;
  wire : list (nat * string);
  pending : list Pending;
  http : list HttpRequest;
  console : list ConsoleEntry
}.

Record World : Type := mkWorld {
  layout : SimulationLayout;
  dashboard : DashboardContainer;
  browser : Browser
}.

(** ** State updates: the React setters and the browser calls *)

Definition upd_layout (f : SimulationLayout -> SimulationLayout) (w : World) : World :=
  mkWorld (f (layout w)) (dashboard w) (browser w).

Definition upd_dashboard (f : DashboardContainer -> DashboardContainer) (w : World) : World :=
  mkWorld (layout w) (f (dashboard w)) (browser w).

Definition upd_browser (f : Browser -> Browser) (w : World) : World :=
  mkWorld (layout w) (dashboard w) (f (browser w)).

Definition setCurrentSim (s : Simulation) : World -> World :=
  upd_layout (fun l => mkLayout s (isSimRunning l) (resetTrigger l) (isRefining l)).

Definition setIsSimRunning (b : bool) : World -> World :=
  upd_layout (fun l => mkLayout (currentSim l) b (resetTrigger l) (isRefining l)).

Definition setResetTrigger (f : N -> N) : World -> World :=
  upd_layout (fun l => mkLayout (currentSim l) (isSimRunning l) (f (resetTrigger l)) (isRefining l)).

Definition setIsRefining (b : bool) : World -> World :=
  upd_layout (fun l => mkLayout (currentSim l) (isSimRunning l) (resetTrigger l) b).

Definition setData (f : list JsValue -> list JsValue) : World -> World :=
  upd_dashboard (fun d => mkDashboard (f (data d)) (ws d) (statusMessage d) (cleanup d)).

Definition setStatusMessage (m : StatusMessage) : World -> World :=
  upd_dashboard (fun d => mkDashboard (data d) (ws d) m (cleanup d)).

(** [ws.current = ...] *)
Definition set_ws_current (r : option nat) : World -> World :=
  upd_dashboard (fun d => mkDashboard (data d) r (statusMessage d) (cleanup d)).

(** The cleanup function the connection effect returns (or none). *)
Definition set_cleanup (r : option nat) : World -> World :=
  upd_dashboard (fun d => mkDashboard (data d) (ws d) (statusMessage d) r).

(** [input.value = ...] *)
Definition set_input_value (s : string) : World -> World :=
  upd_browser (fun b =>
    mkBrowser s (sockets b) (wire b) (pending b) (http b) (console b)).

Definition upd_sockets (f : list WebSocket -> list WebSocket) : World -> World :=
  upd_browser (fun b =>
    mkBrowser (input_value b) (f (sockets b)) (wire b) (pending b) (http b) (console b)).

Definition upd_pending (f : list Pending -> list Pending) : World -> World :=
  upd_browser (fun b =>
    mkBrowser (input_value b) (sockets b) (wire b) (f (pending b)) (http b) (console b)).

(** [console.log] and [console.error]. *)
Definition console_log (e : ConsoleEntry) : World -> World :=
  upd_browser (fun b =>
    mkBrowser (input_value b) (sockets b) (wire b) (pending b) (http b) (console b ++ [e])).

(** [await fetch(...)]: the request goes out and the handler is suspended
    on it at stage [k], holding the [currentSim] it closed over. *)
Definition fetch (r : HttpRequest) (k : Awaiting) (sim : Simulation) : World -> World :=
  upd_browser (fun b =>
    mkBrowser (input_value b) (sockets b) (wire b)
              (pending b ++ [mkPending (List.length (http b)) k sim])
              (http b ++ [r]) (console b)).

(** [socket.send(JSON.stringify({ command }))] on socket [i]. *)
Definition ws_send (i : nat) (command : string) : World -> World :=
  upd_browser (fun b =>
    mkBrowser (input_value b) (sockets b) (wire b ++ [(i, command)])
              (pending b) (http b) (console b)).

Definition with_readyState (r : ReadyState) (s : WebSocket) : WebSocket :=
  mkWebSocket (url_id s) r (seen_isRunning s) (seen_statusMessage s).

(** [socket.close()]: a connecting or open socket starts closing; on a
    closing or closed one the call does nothing. *)
Definition closing (s : WebSocket) : WebSocket :=
  match readyState s with
  | CONNECTING | OPEN => with_readyState CLOSING s
  | CLOSING | CLOSED => s
  end.

Definition ws_close (i : nat) : World -> World :=
  upd_sockets (alter closing i).

Definition ready (w : World) (i : nat) : option ReadyState :=
  readyState <$> sockets (browser w) !! i.

Notation "w |> f" := (f w) (at level 50, left associativity, only parsing).

(** ** [SimulationLayout]: [handleRefineSubmit] *)

(** [catch (err) { console.error(...) } finally { setIsRefining(false) }] *)
Definition refine_failed (w : World) : World :=
  w |> console_log ErrRefining |> setIsRefining false.

(** From the submit event to the first [await]. *)
Definition handleRefineSubmit (w : World) : World :=
  let prompt := input_value (browser w) in
  if String.eqb prompt "" || isRefining (layout w) then w
  else
    let sim := currentSim (layout w) in
    w |> setIsRefining true
      |> console_log (LogPlanning (xml_key sim) prompt)
      |> fetch (PlanEdits prompt (xml_key sim)) AwaitPlan sim.

(** [!plan.edits || plan.edits.length === 0] *)
Definition no_edits (edits : JsProp) : bool :=
  negb (truthy edits) ||
  match edits with
  | Some v => match get_prop v "length" with
              | Some len => strict_eq_zero len
              | None => false
              end
  | None => false
  end.

(** [plan.edits.length] inside the log template. *)
Definition edits_length (edits : JsProp) : JsProp :=
  match edits with
  | Some v => match get_prop v "length" with
              | Some len => len
              | None => None
              end
  | None => None
  end.

(** From the plan response to the second [await] (or to the end). *)
Definition refine_planned (sim : Simulation) (r : FetchResult) (w : World) : World :=
  match r with
  | Rejected => refine_failed w
  | Responded false _ => refine_failed w          (* throw 'Failed to plan edits.' *)
  | Responded true None => refine_failed w        (* planResponse.json() rejects *)
  | Responded true (Some plan) =>
      match get_prop plan "edits" with
      | None => refine_failed w                    (* plan is null *)
      | Some edits =>
          let w := console_log (LogReceivedPlan edits) w in
          if no_edits edits then
            w |> console_log LogNoEdits |> set_input_value ""
              |> setIsRefining false       (* before the return *)
              |> setIsRefining false       (* finally *)
          else
            w |> console_log (LogApplying (edits_length edits))
              |> fetch (ApplyEdits (xml_key sim) edits) AwaitApply sim
      end
  end.

(** From the apply response to the end of the handler. *)
Definition refine_applied (sim : Simulation) (r : FetchResult) (w : World) : World :=
  match r with
  | Rejected => refine_failed w
  | Responded false _ => refine_failed w          (* throw 'Failed to apply edits.' *)
  | Responded true None => refine_failed w        (* applyResponse.json() rejects *)
  | Responded true (Some newSimData) =>
      match get_prop newSimData "simulation_id", get_prop newSimData "model_xml" with
      | Some new_id, Some new_xml =>
          w |> setCurrentSim (mkSimulation new_id new_xml (xml_key sim))
            |> setResetTrigger (fun v => (v + 1)%N)
            |> set_input_value ""
            |> setIsRefining false
      | _, _ => refine_failed w                    (* newSimData is null *)
      end
  end.

(** ** [DashboardContainer] *)

Definition num (z : Z) : JsValue := JNum (inject_Z z).

Definition getInitialData : list JsValue :=
  [ JObj [("episode", num 0); ("reward", num 0); ("length", num 0)] ].

(** [{ command: isRunning ? "run" : "pause" }] *)
Definition command_of (isRunning : bool) : string :=
  if isRunning then "run" else "pause".

(** The cleanup function of the previous run of the connection effect,
    [() => newWs.close()], when that run returned one. *)
Definition run_cleanup (w : World) : World :=
  match cleanup (dashboard w) with
  | Some i => ws_close i w
  | None => w
  end.

(** The body of [useEffect(..., [simulationId, resetTrigger])], run with
    the props and state of the render being committed.  The new socket is
    the next entry of [sockets]; its handlers keep the [isRunning] and the
    [statusMessage] of this render. *)
Definition connection_effect (w : World) : World :=
  let simulationId := simulation_id (currentSim (layout w)) in
  let isRunning := isSimRunning (layout w) in
  let statusMessage_now := statusMessage (dashboard w) in
  if negb (truthy simulationId) then set_cleanup None w
  else
    let w := match ws (dashboard w) with
             | Some i => ws_close i w
             | None => w
             end in
    let newWs := List.length (sockets (browser w)) in
    w |> setData (fun _ => getInitialData)
      |> setStatusMessage ConnectingToServer
      |> upd_sockets (fun l =>
           l ++ [mkWebSocket simulationId CONNECTING isRunning statusMessage_now])
      |> set_ws_current (Some newWs)
      |> set_cleanup (Some newWs).

(** The body of [useEffect(..., [isRunning])]. *)
Definition run_state_effect (w : World) : World :=
  match ws (dashboard w) with
  | Some i =>
      match ready w i with
      | Some OPEN => ws_send i (command_of (isSimRunning (layout w))) w
      | _ => w
      end
  | None => w
  end.

(** [newWs.onopen] of socket [i]. *)
Definition onopen (i : nat) (s : WebSocket) (w : World) : World :=
  w |> console_log LogWsConnected
    |> setStatusMessage TrainingStarted
    |> ws_send i (command_of (seen_isRunning s)).

(** [newWs.onmessage]; [parsed] is the outcome of [JSON.parse(event.data)],
    [None] when it throws. *)
Definition onmessage (parsed : option JsValue) (w : World) : World :=
  match parsed with
  | None => console_log ErrParseWs w
  | Some newDataPoint =>
      match get_prop newDataPoint "episode" with
      | None => console_log ErrParseWs w           (* newDataPoint is null *)
      | Some (Some episode) =>
          w |> setData (fun currentData => currentData ++ [newDataPoint])
            |> setStatusMessage (TrainingEpisode episode)
      | Some None =>
          match get_prop newDataPoint "status", get_prop newDataPoint "error" with
          | Some status, Some error =>
              if strict_eq_str status "complete" then
                w |> setStatusMessage TrainingComplete |> setIsSimRunning false
              else if truthy error then
                w |> setStatusMessage (ErrorMessage error) |> setIsSimRunning false
              else w
          | _, _ => w
          end
      end
  end.

(** [newWs.onerror] *)
Definition onerror (w : World) : World :=
  w |> console_log ErrWs |> setStatusMessage ConnectionError.

(** [newWs.onclose] of a socket [s]. *)
Definition onclose (s : WebSocket) (w : World) : World :=
  let w := console_log LogWsDisconnected w in
  if startsWith_Training (seen_statusMessage s)
  then setStatusMessage ConnectionLost w
  else w.

(** ** The event loop *)

Inductive Event : Type :=
| UserType (text : string)                         (* typing into the refine box *)
| SubmitRefine                                     (* the form's onSubmit *)
| FetchSettled (req : nat) (r : FetchResult)       (* an awaited fetch settles *)
| ClickRun
| ClickPause
| ClickReset
| WsOpen (i : nat)
| WsMessage (i : nat) (parsed : option JsValue)
| WsError (i : nat)
| WsClose (i : nat).

Fixpoint take_pending (req : nat) (l : list Pending) : option (Pending * list Pending) :=
  match l with
  | [] => None
  | p :: rest =>
      if Nat.eqb (p_req p) req then Some (p, rest)
      else match take_pending req rest with
           | Some (q, rest') => Some (q, p :: rest')
           | None => None
           end
  end.

(** The handler an event runs.  The browser delivers [open] to a
    connecting socket, [message] to an open one, [error] and [close] to one
    that is not closed yet; the refine box is disabled while [isRefining];
    a fetch settles once, for the handler suspended on it. *)
Definition handle (e : Event) (w : World) : World :=
  match e with
  | UserType text =>
      if isRefining (layout w) then w else set_input_value text w
  | SubmitRefine => handleRefineSubmit w
  | FetchSettled req r =>
      match take_pending req (pending (browser w)) with
      | Some (p, rest) =>
          let w := upd_pending (fun _ => rest) w in
          match p_stage p with
          | AwaitPlan => refine_planned (p_sim p) r w
          | AwaitApply => refine_applied (p_sim p) r w
          end
      | None => w
      end
  | ClickRun => setIsSimRunning true w
  | ClickPause => setIsSimRunning false w
  | ClickReset => setResetTrigger (fun v => (v + 1)%N) w
  | WsOpen i =>
      match sockets (browser w) !! i with
      | Some s =>
          match readyState s with
          | CONNECTING => w |> upd_sockets (alter (with_readyState OPEN) i) |> onopen i s
          | _ => w
          end
      | None => w
      end
  | WsMessage i parsed =>
      match ready w i with
      | Some OPEN => onmessage parsed w
      | _ => w
      end
  | WsError i =>
      match ready w i with
      | Some CLOSED | None => w
      | Some _ => onerror w
      end
  | WsClose i =>
      match sockets (browser w) !! i with
      | Some s =>
          match readyState s with
          | CLOSED => w
          | _ => w |> upd_sockets (alter (with_readyState CLOSED) i) |> onclose s
          end
      | None => w
      end
  end.

(** Whether the dependency array [[simulationId, resetTrigger]] of the
    connection effect differs between two renders. *)
Definition deps_changed (before now : SimulationLayout) : bool :=
  negb (prop_same (simulation_id (currentSim before)) (simulation_id (currentSim now)))
  || negb (N.eqb (resetTrigger before) (resetTrigger now)).

(** The render that follows a handler: each effect runs again when an
    entry of its dependency array differs from the previous render, the
    connection effect (after the cleanup of its previous run) before the
    run-state effect. *)
Definition commit (before : SimulationLayout) (w : World) : World :=
  let now := layout w in
  let w :=
    if deps_changed before now
    then w |> run_cleanup |> connection_effect
    else w in
  if Bool.eqb (isSimRunning before) (isSimRunning now) then w
  else run_state_effect w.

Definition step (w : World) (e : Event) : World := commit (layout w) (handle e w).

Definition run (w : World) (es : list Event) : World := fold_left step es w.

(** [SimulationLayout] mounted with the [simulation] prop: the [useState]
    initial values, then both effects of [DashboardContainer]. *)
Definition mount (simulation : Simulation) : World :=
  mkWorld (mkLayout simulation true 0%N false)
          (mkDashboard getInitialData None ConnectingToServer None)
          (mkBrowser "" [] [] [] [] [])
  |> connection_effect |> run_state_effect.

Definition reachable (w : World) : Prop :=
  exists simulation es, w = run (mount simulation) es.

(** ** Vocabulary of the properties *)

(** A frame the handler treats as a telemetry point: [episode !== undefined]. *)
Definition has_episode (v : JsValue) : bool :=
  match get_prop v "episode" with
  | Some (Some _) => true
  | _ => false
  end.

(** A frame that reaches one of the two terminal branches of [onmessage]:
    no [episode], and [status === "complete"] or a truthy [error]. *)
Definition terminal_frame (v : JsValue) : bool :=
  match get_prop v "episode", get_prop v "status", get_prop v "error" with
  | Some None, Some status, Some error =>
      strict_eq_str status "complete" || truthy error
  | _, _, _ => false
  end.

(** The numeric [episode] of a point of the series. *)
Definition episode_number (v : JsValue) : option Q :=
  match get_prop v "episode" with
  | Some (Some (JNum q)) => Some q
  | _ => None
  end.

Fixpoint nondecreasing (qs : list Q) : bool :=
  match qs with
  | a :: (b :: _) as rest => Qle_bool a b && nondecreasing rest
  | _ => true
  end.

Definition is_ClickRun (e : Event) : bool :=
  match e with ClickRun => true | _ => false end.

(** Events other than the settling of a fetch. *)
Definition quiet (e : Event) : bool :=
  match e with FetchSettled _ _ => false | _ => true end.

Definition request_key (r : HttpRequest) : JsProp :=
  match r with
  | PlanEdits _ key => key
  | ApplyEdits key _ => key
  end.

(** The part of the browser the refine handler works on, and with it the
    part of the world a refine call reads or writes. *)
Definition refine_view (w : World) : string * list Pending * list HttpRequest :=
  (input_value (browser w), pending (browser w), http (browser w)).

Definition refine_state (w : World) :=
  (currentSim (layout w), isRefining (layout w), refine_view w).

(** [isRefining] is set exactly while one handler is suspended, and that
    handler closed over the current simulation. *)
Definition refine_inv (w : World) : Prop :=
  match pending (browser w) with
  | [] => isRefining (layout w) = false
  | [p] => isRefining (layout w) = true /\ p_sim p = currentSim (layout w)
  | _ => False
  end.

(** Every key in sight is [k]. *)
Definition key_inv (k : JsProp) (w : World) : Prop :=
  xml_key (currentSim (layout w)) = k /\
  Forall (fun p => xml_key (p_sim p) = k) (pending (browser w)) /\
  Forall (fun r => request_key r = k) (http (browser w)).

Definition alive (s : WebSocket) : bool :=
  match readyState s with
  | CONNECTING | OPEN => true
  | CLOSING | CLOSED => false
  end.

Definition dead_at (l : list WebSocket) (i : nat) : Prop :=
  exists s, l !! i = Some s /\ alive s = false.

Definition all_dead (l : list WebSocket) : Prop :=
  forall i s, l !! i = Some s -> alive s = false.

(** The only socket that can still be connecting or open is the one both
    the [ws] ref and the registered cleanup point to. *)
Definition sock_inv (w : World) : Prop :=
  forall i s, sockets (browser w) !! i = Some s -> alive s = true ->
              ws (dashboard w) = Some i /\ cleanup (dashboard w) = Some i.

(** ** Sample data *)

Definition sim1 : Simulation :=
  mkSimulation (Some (JStr "sim-1")) (Some (JStr "<mujoco/>")) (Some (JStr "key-1")).

Definition point (episode : Z) : JsValue :=
  JObj [("episode", num episode); ("reward", num 0); ("length", num 10)].

Definition complete_frame : JsValue := JObj [("status", JStr "complete")].

Definition error_frame (message : string) : JsValue := JObj [("error", JStr message)].

Definition plan_of (edits : list JsValue) : JsValue := JObj [("edits", JArr edits)].

Definition applied (id xml key : string) : JsValue :=
  JObj [("simulation_id", JStr id); ("model_xml", JStr xml); ("xml_key", JStr key)].

(** The layout mounted on [sim1] with its socket open. *)
Definition opened : World := run (mount sim1) [WsOpen 0].

(** The same with two points received. *)
Definition training : World :=
  run opened [WsMessage 0 (Some (point 0)); WsMessage 0 (Some (point 1))].

(** A prompt typed into the refine box, and then submitted. *)
Definition typed : World := run (mount sim1) [UserType "stronger legs"].

Definition refining : World := run typed [SubmitRefine].

(** A refine call that gets an empty plan; one whose apply is refused;
    one that succeeds, with another submitted after it. *)
Definition empty_plan_call : list Event :=
  [SubmitRefine; ClickPause; FetchSettled 0 (Responded true (Some (plan_of [])))].

Definition refused_call : list Event :=
  [SubmitRefine; ClickPause;
   FetchSettled 0 (Responded true (Some (plan_of [JStr "edit"])));
   WsOpen 0;
   FetchSettled 1 (Responded false None)].

Definition applied_call (id : string) : list Event :=
  [SubmitRefine;
   FetchSettled 0 (Responded true (Some (plan_of [JStr "edit"])));
   FetchSettled 1 (Responded true (Some (applied id "<mujoco2/>" "key-2")))].

Definition refined_twice : World :=
  run typed (applied_call "sim-2" ++ [UserType "again"; SubmitRefine]).

(** Frames with episodes 0, 1, 1, 3, 2, 4 and the episodes of the series
    they leave. *)
Definition stale_frames : list Event :=
  map (fun e => WsMessage 0 (Some (point e))) [0; 1; 1; 3; 2; 4]%Z.

Definition stale_series : list Q :=
  omap episode_number (data (dashboard (run opened stale_frames))).

(** Training that completed, and a point after that. *)
Definition completed : World := run training [WsMessage 0 (Some complete_frame)].

Definition after_completed : World := step completed (WsMessage 0 (Some (point 2))).

(** Pause clicked while the first socket is still connecting; then it opens. *)
Definition paused_before_open : World := run (mount sim1) [ClickPause; WsOpen 0].

(** ** [Home] and [ChatbotEntry] *)

(** The texts [setError] is called with. *)
Inductive ErrorText : Type :=
| NoErrorText                     (* '' *)
| ApiError (shown : JsValue)      (* API Error: ${err.detail || response.statusText} *)
| ThrownMessage.                  (* err.message of an exception the platform threw *)

Record ChatbotEntry : Type := mkChatbotEntry {
  chat_prompt : string;
  isLoading : bool;
  chat_error : ErrorText
}.

(** How the generate request settles; a response also has its [statusText]. *)
Inductive GenerateResult : Type :=
| GenerateRejected
| GenerateResponded (ok : bool) (statusText : string) (body : option JsValue).

(** What [Home] renders: the chatbot entry (with whether its handler is
    suspended on the generate request) while [simulation] is falsy, the
    mounted layout once it is truthy. *)
Inductive Page : Type :=
| ChatbotPage (c : ChatbotEntry) (awaiting : bool)
| SimulationPage (w : World).

Record App : Type := mkApp {
  page : Page;
  generated : list string        (* prompts posted to /simulation/generate *)
}.

Inductive AppEvent : Type :=
| ChatType (text : string)
| ChatSubmit
| GenerateSettled (r : GenerateResult)
| InSimulation (e : Event).

(** [v.k] on a value that is not [null]. *)
Definition field (v : JsValue) (k : string) : JsProp :=
  match get_prop v k with
  | Some p => p
  | None => None
  end.

(** The [simulation] prop as [SimulationLayout] reads it. *)
Definition simulation_of (v : JsValue) : Simulation :=
  mkSimulation (field v "simulation_id") (field v "model_xml") (field v "xml_key").

(** [a || b] *)
Definition js_or (a : JsProp) (b : JsValue) : JsValue :=
  match a with
  | Some v => if truthy a then v else b
  | None => b
  end.

Section Chat.

(** [String.prototype.trim]. *)
Variable trim : string -> string.

(** [handleSubmit], from the submit event to the [await]. *)
Definition handleSubmit (c : ChatbotEntry) (a : App) : App :=
  if String.eqb (trim (chat_prompt c)) "" then a
  else mkApp (ChatbotPage (mkChatbotEntry (chat_prompt c) true NoErrorText) true)
             (generated a ++ [chat_prompt c]).

(** [catch (err) { setError(err.message) } finally { setIsLoading(false) }] *)
Definition generate_failed (c : ChatbotEntry) (e : ErrorText) : Page :=
  ChatbotPage (mkChatbotEntry (chat_prompt c) false e) false.

(** [handleSubmit] from the response on; on success [onChatSubmit] is
    [handleChatSubmit] of [Home], whose [setSimulation] decides what is
    rendered next. *)
Definition generate_settled (c : ChatbotEntry) (r : GenerateResult) : Page :=
  match r with
  | GenerateRejected => generate_failed c ThrownMessage
  | GenerateResponded false statusText None => generate_failed c ThrownMessage
  | GenerateResponded false statusText (Some err) =>
      match get_prop err "detail" with
      | None => generate_failed c ThrownMessage            (* err is null *)
      | Some detail => generate_failed c (ApiError (js_or detail (JStr statusText)))
      end
  | GenerateResponded true _ None => generate_failed c ThrownMessage
  | GenerateResponded true _ (Some simulationData) =>
      if truthy (Some simulationData)
      then SimulationPage (mount (simulation_of simulationData))
      else ChatbotPage (mkChatbotEntry (chat_prompt c) false (chat_error c)) false
  end.

(** The input and the submit button are disabled while [isLoading]: the
    browser then delivers neither typing nor a submit. *)
Definition app_step (a : App) (e : AppEvent) : App :=
  match page a, e with
  | ChatbotPage c awaiting, ChatType text =>
      if isLoading c then a
      else mkApp (ChatbotPage (mkChatbotEntry text (isLoading c) (chat_error c)) awaiting)
                 (generated a)
  | ChatbotPage c _, ChatSubmit =>
      if isLoading c then a else handleSubmit c a
  | ChatbotPage c true, GenerateSettled r => mkApp (generate_settled c r) (generated a)
  | SimulationPage w, InSimulation e => mkApp (SimulationPage (step w e)) (generated a)
  | _, _ => a
  end.

Definition app_run (a : App) (es : list AppEvent) : App := fold_left app_step es a.

End Chat.

(** [useState('')], [useState(false)], [useState('')], nothing posted yet. *)
Definition app_start : App :=
  mkApp (ChatbotPage (mkChatbotEntry "" false NoErrorText) false) [].

(** ** [LLMPanel] *)

Inductive PanelLog : Type :=
| LogPromptUpdated          (* System prompt updated successfully *)
| ErrUpdatingPrompt.        (* Error updating prompt: *)

Record LLMPanel : Type := mkLLMPanel {
  llm_prompt : string;
  isUpdating : bool;
  updating : bool;                 (* a handler is suspended on its fetch *)
  posted : list string;            (* prompts posted to /config/system_prompt *)
  panel_console : list PanelLog
}.

Inductive PanelEvent : Type :=
| PanelType (text : string)        (* the textarea's onChange *)
| PanelClick                       (* the Update Prompt button *)
| PanelSettled (r : FetchResult).

Definition panel_start : LLMPanel :=
  mkLLMPanel "You are an RL agent optimizing a humanoid walker..." false false [] [].

(** [result.status === true] *)
Definition strict_eq_true (p : JsProp) : bool :=
  match p with
  | Some (JBool true) => true
  | _ => false
  end.

(** What [handlePromptUpdate] logs once its fetch settled. *)
Definition update_log (r : FetchResult) : list PanelLog :=
  match r with
  | Rejected => [ErrUpdatingPrompt]
  | Responded false _ => [ErrUpdatingPrompt]       (* throw 'Failed to update prompt' *)
  | Responded true None => [ErrUpdatingPrompt]     (* response.json() rejects *)
  | Responded true (Some result) =>
      match get_prop result "status" with
      | None => [ErrUpdatingPrompt]                (* result is null *)
      | Some status => if strict_eq_true status then [LogPromptUpdated] else []
      end
  end.

(** [handlePromptUpdate] up to its [await] on [PanelClick] (the button is
    disabled while [isUpdating]), and from the response to the [finally]
    on [PanelSettled]. *)
Definition panel_step (p : LLMPanel) (e : PanelEvent) : LLMPanel :=
  match e with
  | PanelType text =>
      mkLLMPanel text (isUpdating p) (updating p) (posted p) (panel_console p)
  | PanelClick =>
      if isUpdating p then p
      else mkLLMPanel (llm_prompt p) true true (posted p ++ [llm_prompt p]) (panel_console p)
  | PanelSettled r =>
      if updating p
      then mkLLMPanel (llm_prompt p) false false (posted p) (panel_console p ++ update_log r)
      else p
  end.

Definition panel_run (p : LLMPanel) (es : list PanelEvent) : LLMPanel :=
  fold_left panel_step es p.

(** The text left in the textarea by a run of events. *)
Definition last_typed (start : string) (es : list PanelEvent) : string :=
  fold_left (fun s e => match e with PanelType text => text | _ => s end) es start.

(** ** Vocabulary of the further properties *)

Definition run_or_pause (f : nat * string) : Prop :=
  snd f = "run" \/ snd f = "pause".

(** The Run Training and Pause Training buttons. *)
Definition click (running : bool) : Event :=
  if running then ClickRun else ClickPause.

(** Events that can change a dependency of the connection effect. *)
Definition reconnects (e : Event) : bool :=
  match e with ClickReset | FetchSettled _ _ => true | _ => false end.

(** The ways the plan request can fail: the fetch rejects, the answer is
    not 2xx, its body is not JSON, its body is [null]. *)
Definition plan_fails (r : FetchResult) : bool :=
  match r with
  | Rejected => true
  | Responded false _ => true
  | Responded true None => true
  | Responded true (Some plan) =>
      match get_prop plan "edits" with None => true | Some _ => false end
  end.

(** The same for the apply request. *)
Definition apply_fails (r : FetchResult) : bool :=
  match r with
  | Rejected => true
  | Responded false _ => true
  | Responded true None => true
  | Responded true (Some newSimData) =>
      match get_prop newSimData "simulation_id" with None => true | Some _ => false end
  end.

(** [Total episodes: {data.length - 1}] *)
Definition total_episodes (d : list JsValue) : Z := (Z.of_nat (List.length d) - 1)%Z.

Definition series_inv (w : World) : Prop :=
  exists points, data (dashboard w) = getInitialData ++ points /\
                 forallb has_episode points = true.

(** What the handlers of a socket closed over. *)
Definition same_closure (s s' : WebSocket) : Prop :=
  url_id s' = url_id s /\ seen_isRunning s' = seen_isRunning s /\
  seen_statusMessage s' = seen_statusMessage s.

(** Every apply request stands right after a plan request with the same
    key, and carries edits that passed the emptiness test. *)
Definition paired (l : list HttpRequest) : Prop :=
  forall i key edits, l !! i = Some (ApplyEdits key edits) ->
    no_edits edits = false /\
    exists j prompt, i = S j /\ l !! j = Some (PlanEdits prompt key).

(** A handler waiting for its plan has its plan request last in the log. *)
Definition log_inv (w : World) : Prop :=
  paired (http (browser w)) /\
  match pending (browser w) with
  | [] => isRefining (layout w) = false
  | [p] => isRefining (layout w) = true /\
           (p_stage p = AwaitPlan ->
            exists prompt, last (http (browser w)) = Some (PlanEdits prompt (xml_key (p_sim p))))
  | _ => False
  end.

Definition is_generate_settled (e : AppEvent) : bool :=
  match e with GenerateSettled _ => true | _ => false end.

Definition is_panel_settled (e : PanelEvent) : bool :=
  match e with PanelSettled _ => true | _ => false end.

(** ** Further sample data *)

(** [trim] on prompts of ASCII text. *)
Definition is_blank_char (c : ascii) : bool :=
  existsb (Ascii.eqb c) [" "%char; "009"%char; "010"%char; "013"%char].

Fixpoint trim_start (s : string) : string :=
  match s with
  | String c rest => if is_blank_char c then trim_start rest else s
  | EmptyString => EmptyString
  end.

Definition reverse_string (s : string) : string :=
  string_of_list_ascii (rev (list_ascii_of_string s)).

Definition trim_ascii (s : string) : string :=
  reverse_string (trim_start (reverse_string (trim_start s))).

(** A frame with both an episode and a completion status; a frame with
    none of the fields the handler looks at. *)
Definition mixed_frame : JsValue :=
  JObj [("episode", num 7); ("status", JStr "complete")].

Definition heartbeat_frame : JsValue := JObj [("reward", num 1)].

(** Paused before the first socket opened. *)
Definition paused_connecting : World := run (mount sim1) [ClickPause].

Definition walker_prompt : ChatbotEntry :=
  mkChatbotEntry "  a bipedal walker " false NoErrorText.

Definition generated_body : JsValue := applied "sim-1" "<mujoco/>" "key-1".

(** ** Proof automation *)

Ltac break_world w :=
  destruct w as [[w_sim w_running w_trigger w_refining]
                 [w_data w_ws w_status w_cleanup]
                 [w_input w_sockets w_wire w_pending w_http w_console]].

(** Case analysis on the innermost scrutinee of the goal. *)
Ltac inner_case :=
  match goal with
  | |- context [match ?x with _ => _ end] =>
      lazymatch x with
      | context [match _ with _ => _ end] => fail
      | _ => destruct x eqn:?
      end
  end.

Ltac open_handlers :=
  unfold handleRefineSubmit, refine_planned, refine_applied, refine_failed,
    onmessage, onopen, onerror, onclose, ready;
  unfold setCurrentSim, setIsSimRunning, setResetTrigger, setIsRefining, setData,
    setStatusMessage, set_ws_current, set_cleanup, set_input_value, upd_sockets,
    upd_pending, console_log, fetch, ws_send, ws_close,
    upd_layout, upd_dashboard, upd_browser; cbn.

Ltac use_refine_state H :=
  unfold refine_state, refine_view in H; cbn in H;
  injection H as ? ? ? ? ?; subst.

(** ** Basic facts about the embedding *)

Lemma js_same_refl : forall v, js_same v v = true.
Proof.
  fix IH 1. intros [ | b | q | s | items | fields]; simpl.
  - reflexivity.
  - destruct b; reflexivity.
  - apply Qeq_bool_refl.
  - apply String.eqb_refl.
  - induction items as [ | x xs IHxs]; [reflexivity | ].
    rewrite (IH x). exact IHxs.
  - induction fields as [ | [k x] xs IHxs]; [reflexivity | ].
    rewrite String.eqb_refl, (IH x). exact IHxs.
Qed.

Lemma prop_same_refl : forall p, prop_same p p = true.
Proof. intros [v | ]; simpl; [apply js_same_refl | reflexivity]. Qed.

(** The constructors of [StatusMessage] that start with the word Training
    are those whose text does, whatever a template renders a value to. *)
Lemma startsWith_Training_text : forall ToString m,
  String.prefix "Training" (status_text ToString m) = startsWith_Training m.
Proof. intros ToString [ | | e | | [e | ] | | ]; reflexivity. Qed.

(** A render in which no dependency changed runs no effect. *)
Lemma commit_same_layout : forall w, commit (layout w) w = w.
Proof.
  intros w. unfold commit, deps_changed.
  rewrite prop_same_refl, N.eqb_refl, Bool.eqb_reflx. reflexivity.
Qed.

Lemma layout_run_cleanup : forall w, layout (run_cleanup w) = layout w.
Proof. intros w. unfold run_cleanup. destruct (cleanup (dashboard w)); reflexivity. Qed.

Lemma layout_connection_effect : forall w, layout (connection_effect w) = layout w.
Proof.
  intros w. unfold connection_effect.
  destruct (truthy _); simpl; [ | reflexivity].
  destruct (ws (dashboard w)); reflexivity.
Qed.

Lemma layout_run_state_effect : forall w, layout (run_state_effect w) = layout w.
Proof.
  intros w. unfold run_state_effect.
  destruct (ws (dashboard w)) as [i | ]; [ | reflexivity].
  destruct (ready w i) as [[ | | | ] | ]; reflexivity.
Qed.

Lemma refine_view_run_cleanup : forall w, refine_view (run_cleanup w) = refine_view w.
Proof. intros w. unfold run_cleanup. destruct (cleanup (dashboard w)); reflexivity. Qed.

Lemma refine_view_connection_effect :
  forall w, refine_view (connection_effect w) = refine_view w.
Proof.
  intros w. unfold connection_effect.
  destruct (truthy _); simpl; [ | reflexivity].
  destruct (ws (dashboard w)); reflexivity.
Qed.

Lemma refine_view_run_state_effect :
  forall w, refine_view (run_state_effect w) = refine_view w.
Proof.
  intros w. unfold run_state_effect.
  destruct (ws (dashboard w)) as [i | ]; [ | reflexivity].
  destruct (ready w i) as [[ | | | ] | ]; reflexivity.
Qed.

Create Rewrite HintDb effects.
#[local] Hint Rewrite layout_run_cleanup layout_connection_effect
  layout_run_state_effect refine_view_run_cleanup refine_view_connection_effect
  refine_view_run_state_effect : effects.

(** Effects never write the state of [SimulationLayout]. *)
Lemma layout_commit : forall before w, layout (commit before w) = layout w.
Proof.
  intros before w. unfold commit.
  destruct (deps_changed _ _); destruct (Bool.eqb _ _);
    autorewrite with effects; reflexivity.
Qed.

(** Effects issue no request and leave the refine box alone. *)
Lemma refine_view_commit : forall before w, refine_view (commit before w) = refine_view w.
Proof.
  intros before w. unfold commit.
  destruct (deps_changed _ _); destruct (Bool.eqb _ _);
    autorewrite with effects; reflexivity.
Qed.

Lemma refine_state_step : forall w e,
  refine_state (step w e) = refine_state (handle e w).
Proof.
  intros w e. unfold refine_state, step.
  rewrite refine_view_commit, layout_commit. reflexivity.
Qed.

Lemma run_app : forall es1 es2 w, run w (es1 ++ es2) = run (run w es1) es2.
Proof. intros es1 es2 w. unfold run. apply fold_left_app. Qed.

Lemma run_cons : forall e es w, run w (e :: es) = run (step w e) es.
Proof. reflexivity. Qed.

(** ** [handleRefineSubmit]: one plan/apply cycle at a time *)

Lemma handle_quiet_refining : forall w e,
  quiet e = true -> isRefining (layout w) = true ->
  refine_state (handle e w) = refine_state w.
Proof.
  intros w e Hq Hr. break_world w. simpl in Hr. subst w_refining.
  destruct e; try discriminate Hq; cbn; open_handlers;
    rewrite ?orb_true_r; repeat (inner_case; cbn); reflexivity.
Qed.

(** While a refine call is suspended, nothing but the settling of its
    fetch touches the simulation, the flag, the box or the requests. *)
Lemma quiet_refining : forall es w sim v,
  forallb quiet es = true ->
  refine_state w = (sim, true, v) -> refine_state (run w es) = (sim, true, v).
Proof.
  induction es as [ | e es IH]; intros w sim v Hq H; [exact H | ].
  simpl in Hq. apply andb_true_iff in Hq as [He Hes].
  rewrite run_cons. apply IH; [exact Hes | ].
  rewrite refine_state_step, handle_quiet_refining; [exact H | exact He | ].
  unfold refine_state in H. congruence.
Qed.

Lemma refine_inv_handle : forall w e, refine_inv w -> refine_inv (handle e w).
Proof.
  intros w e. break_world w. unfold refine_inv. cbn.
  destruct w_pending as [ | p [ | p' rest]]; [ | | contradiction].
  - intros ->. destruct e; cbn; open_handlers; repeat (inner_case; cbn); auto.
  - intros [-> Hp]. destruct e; cbn; open_handlers; rewrite ?orb_true_r; cbn;
      repeat (inner_case; cbn); auto.
Qed.

Lemma refine_inv_step : forall w e, refine_inv w -> refine_inv (step w e).
Proof.
  intros w e H. apply (refine_inv_handle w e) in H. revert H.
  unfold step, refine_inv.
  pose proof (refine_view_commit (layout w) (handle e w)) as Hv.
  unfold refine_view in Hv. injection Hv as _ Hp _.
  rewrite Hp, layout_commit. auto.
Qed.

Lemma refine_inv_mount : forall simulation, refine_inv (mount simulation).
Proof.
  intros simulation. unfold refine_inv, mount.
  match goal with |- context [run_state_effect ?w] =>
    pose proof (refine_view_run_state_effect w) as H1;
    rewrite (layout_run_state_effect w) end.
  match goal with |- context [connection_effect ?w] =>
    pose proof (refine_view_connection_effect w) as H2;
    rewrite (layout_connection_effect w) end.
  unfold refine_view in H1, H2.
  injection H1 as _ -> _. injection H2 as _ -> _. reflexivity.
Qed.

Lemma reachable_refine_inv : forall w, reachable w -> refine_inv w.
Proof.
  intros w (simulation & es & ->).
  generalize (refine_inv_mount simulation). generalize (mount simulation).
  induction es as [ | e es IH]; intros w0 H0; [exact H0 | ].
  rewrite run_cons. apply IH, refine_inv_step, H0.
Qed.

Lemma idle_refine_state : forall w,
  reachable w -> isRefining (layout w) = false ->
  refine_state w =
    (currentSim (layout w), false, (input_value (browser w), [], http (browser w))).
Proof.
  intros w Hreach Hidle. apply reachable_refine_inv in Hreach.
  unfold refine_inv in Hreach. unfold refine_state, refine_view.
  destruct (pending (browser w)) as [ | p [ | p' rest]]; try contradiction.
  - rewrite Hidle. reflexivity.
  - destruct Hreach as [Hr _]. congruence.
Qed.

(** The stages of one call, each as a step on [refine_state]. *)

Lemma submit_idle : forall w sim box reqs,
  refine_state w = (sim, false, (box, [], reqs)) -> box <> "" ->
  refine_state (step w SubmitRefine) =
    (sim, true, (box, [mkPending (List.length reqs) AwaitPlan sim],
                 reqs ++ [PlanEdits box (xml_key sim)])).
Proof.
  intros w sim box reqs H Hbox. rewrite refine_state_step.
  break_world w. use_refine_state H.
  apply String.eqb_neq in Hbox.
  cbn. unfold handleRefineSubmit. cbn. rewrite Hbox. reflexivity.
Qed.

Lemma type_idle : forall w sim box text ps reqs,
  refine_state w = (sim, false, (box, ps, reqs)) ->
  refine_state (step w (UserType text)) = (sim, false, (text, ps, reqs)).
Proof.
  intros w sim box text ps reqs H. rewrite refine_state_step.
  break_world w. use_refine_state H. reflexivity.
Qed.

Lemma plan_settled_empty : forall w cur sim box n reqs plan edits,
  refine_state w = (cur, true, (box, [mkPending n AwaitPlan sim], reqs)) ->
  get_prop plan "edits" = Some edits -> no_edits edits = true ->
  refine_state (step w (FetchSettled n (Responded true (Some plan)))) =
    (cur, false, ("", [], reqs)).
Proof.
  intros w cur sim box n reqs plan edits H Hget Hno. rewrite refine_state_step.
  break_world w. use_refine_state H.
  cbn. rewrite Nat.eqb_refl. cbn. unfold refine_planned.
  rewrite Hget, Hno. reflexivity.
Qed.

Lemma plan_settled_edits : forall w cur sim box n reqs plan edits,
  refine_state w = (cur, true, (box, [mkPending n AwaitPlan sim], reqs)) ->
  get_prop plan "edits" = Some edits -> no_edits edits = false ->
  refine_state (step w (FetchSettled n (Responded true (Some plan)))) =
    (cur, true, (box, [mkPending (List.length reqs) AwaitApply sim],
                 reqs ++ [ApplyEdits (xml_key sim) edits])).
Proof.
  intros w cur sim box n reqs plan edits H Hget Hno. rewrite refine_state_step.
  break_world w. use_refine_state H.
  cbn. rewrite Nat.eqb_refl. cbn. unfold refine_planned.
  rewrite Hget, Hno. reflexivity.
Qed.

Lemma apply_settled_not_ok : forall w cur sim box n reqs body,
  refine_state w = (cur, true, (box, [mkPending n AwaitApply sim], reqs)) ->
  refine_state (step w (FetchSettled n (Responded false body))) =
    (cur, false, (box, [], reqs)).
Proof.
  intros w cur sim box n reqs body H. rewrite refine_state_step.
  break_world w. use_refine_state H.
  cbn. rewrite Nat.eqb_refl. reflexivity.
Qed.

(** C5: a refine submitted while an earlier one is still suspended on its
    fetch is turned away at the guard: the whole world, requests included,
    is what it was; and exactly one call is in flight. *)
Theorem C5_second_refine_rejected : forall w,
  reachable w -> pending (browser w) <> [] ->
  step w SubmitRefine = w /\ List.length (pending (browser w)) = 1.
Proof.
  intros w Hreach Hpend. apply reachable_refine_inv in Hreach.
  unfold refine_inv in Hreach.
  destruct (pending (browser w)) as [ | p [ | p' rest]] eqn:E; try contradiction.
  destruct Hreach as [Hr _]. split; [ | reflexivity].
  unfold step. cbn. unfold handleRefineSubmit. rewrite Hr, orb_true_r.
  apply commit_same_layout.
Qed.

Lemma C5_second_refine_rejected_witness :
  step refining SubmitRefine = refining /\
  List.length (pending (browser refining)) = 1.
Proof.
  apply (C5_second_refine_rejected refining).
  - exists sim1, [UserType "stronger legs"; SubmitRefine]. reflexivity.
  - vm_compute. discriminate.
Defined.

(** C6: when the plan that comes back has no edits, the call ends there:
    the only request it issued is the plan request, the simulation is the
    one it started from, [isRefining] is false again and nothing is left
    suspended.  Other events may arrive while the plan request is out. *)
Theorem C6_empty_plan_is_noop : forall w0 others plan edits,
  reachable w0 -> isRefining (layout w0) = false ->
  input_value (browser w0) <> "" ->
  forallb quiet others = true ->
  get_prop plan "edits" = Some edits -> no_edits edits = true ->
  let n := List.length (http (browser w0)) in
  let w := run w0 (SubmitRefine :: others ++
                   [FetchSettled n (Responded true (Some plan))]) in
  http (browser w) =
    http (browser w0) ++
      [PlanEdits (input_value (browser w0)) (xml_key (currentSim (layout w0)))] /\
  currentSim (layout w) = currentSim (layout w0) /\
  isRefining (layout w) = false /\
  pending (browser w) = [].
Proof.
  intros w0 others plan edits Hreach Hidle Hbox Hq Hget Hno n w. subst n.
  pose proof (idle_refine_state w0 Hreach Hidle) as H0.
  pose proof (submit_idle _ _ _ _ H0 Hbox) as H1.
  pose proof (quiet_refining others _ _ _ Hq H1) as H2.
  pose proof (plan_settled_empty _ _ _ _ _ _ _ _ H2 Hget Hno) as H3.
  assert (Hw : w = step (run (step w0 SubmitRefine) others)
                        (FetchSettled (List.length (http (browser w0)))
                                      (Responded true (Some plan)))).
  { unfold w. rewrite run_cons, run_app. reflexivity. }
  rewrite <- Hw in H3. unfold refine_state, refine_view in H3.
  injection H3 as -> -> _ -> ->. auto.
Qed.

Lemma C6_empty_plan_is_noop_witness :
  http (browser (run typed empty_plan_call)) =
    [PlanEdits "stronger legs" (Some (JStr "key-1"))] /\
  currentSim (layout (run typed empty_plan_call)) = sim1 /\
  isRefining (layout (run typed empty_plan_call)) = false /\
  pending (browser (run typed empty_plan_call)) = [].
Proof.
  apply (C6_empty_plan_is_noop typed [ClickPause] (plan_of []) (Some (JArr []))).
  - exists sim1, [UserType "stronger legs"]. reflexivity.
  - reflexivity.
  - vm_compute. discriminate.
  - reflexivity.
  - reflexivity.
  - reflexivity.
Defined.

(** C4: a refine call whose apply request gets a non-2xx answer leaves
    [currentSim] (document and key) as it was before the call, issues the
    plan and the apply request and nothing else, and ends with
    [isRefining] false and nothing suspended, so that the next submitted
    prompt goes out as a plan request. *)
Theorem C4_failed_apply_keeps_revision :
  forall w0 others1 plan edits others2 body text,
  reachable w0 -> isRefining (layout w0) = false ->
  input_value (browser w0) <> "" ->
  forallb quiet others1 = true -> forallb quiet others2 = true ->
  get_prop plan "edits" = Some edits -> no_edits edits = false ->
  text <> "" ->
  let n := List.length (http (browser w0)) in
  let key := xml_key (currentSim (layout w0)) in
  let w := run w0 (SubmitRefine :: others1 ++
                   FetchSettled n (Responded true (Some plan)) :: others2 ++
                   [FetchSettled (S n) (Responded false body)]) in
  http (browser w) =
    http (browser w0) ++ [PlanEdits (input_value (browser w0)) key;
                          ApplyEdits key edits] /\
  currentSim (layout w) = currentSim (layout w0) /\
  isRefining (layout w) = false /\
  pending (browser w) = [] /\
  http (browser (run w [UserType text; SubmitRefine])) =
    http (browser w) ++ [PlanEdits text key].
Proof.
  intros w0 others1 plan edits others2 body text Hreach Hidle Hbox Hq1 Hq2
         Hget Hno Htext n key w. subst n key.
  pose proof (idle_refine_state w0 Hreach Hidle) as H0.
  pose proof (submit_idle _ _ _ _ H0 Hbox) as H1.
  pose proof (quiet_refining others1 _ _ _ Hq1 H1) as H2.
  pose proof (plan_settled_edits _ _ _ _ _ _ _ _ H2 Hget Hno) as H3.
  pose proof (quiet_refining others2 _ _ _ Hq2 H3) as H4.
  rewrite length_app in H4. cbn [List.length] in H4.
  replace (List.length (http (browser w0)) + 1)
    with (S (List.length (http (browser w0)))) in H4 by lia.
  pose proof (apply_settled_not_ok _ _ _ _ _ _ body H4) as H5.
  assert (Hw : w = step (run (step (run (step w0 SubmitRefine) others1)
                                   (FetchSettled (List.length (http (browser w0)))
                                                 (Responded true (Some plan))))
                             others2)
                        (FetchSettled (S (List.length (http (browser w0))))
                                      (Responded false body))).
  { unfold w. rewrite run_cons, run_app, run_cons, run_app. reflexivity. }
  rewrite <- Hw in H5.
  pose proof (type_idle _ _ _ text _ _ H5) as H6.
  pose proof (submit_idle _ _ _ _ H6 Htext) as H7.
  change (run w [UserType text; SubmitRefine])
    with (step (step w (UserType text)) SubmitRefine).
  unfold refine_state, refine_view in H5, H7.
  injection H7 as _ _ _ _ ->.
  injection H5 as -> -> _ -> ->.
  rewrite <- app_assoc. auto.
Qed.

Lemma C4_failed_apply_keeps_revision_witness :
  http (browser (run typed refused_call)) =
    [PlanEdits "stronger legs" (Some (JStr "key-1"));
     ApplyEdits (Some (JStr "key-1")) (Some (JArr [JStr "edit"]))] /\
  currentSim (layout (run typed refused_call)) = sim1 /\
  isRefining (layout (run typed refused_call)) = false /\
  pending (browser (run typed refused_call)) = [] /\
  http (browser (run (run typed refused_call) [UserType "again"; SubmitRefine])) =
    http (browser (run typed refused_call)) ++
      [PlanEdits "again" (Some (JStr "key-1"))].
Proof.
  apply (C4_failed_apply_keeps_revision typed [ClickPause] (plan_of [JStr "edit"])
           (Some (JArr [JStr "edit"])) [WsOpen 0] None "again").
  - exists sim1, [UserType "stronger legs"]. reflexivity.
  - reflexivity.
  - vm_compute. discriminate.
  - reflexivity.
  - reflexivity.
  - reflexivity.
  - reflexivity.
  - discriminate.
Defined.

(** ** The revision key *)

Lemma take_pending_Forall : forall (P : Pending -> Prop) req l p rest,
  take_pending req l = Some (p, rest) -> Forall P l -> P p /\ Forall P rest.
Proof.
  intros P req l. induction l as [ | q l IH]; intros p rest Htake Hall.
  - discriminate.
  - simpl in Htake. apply Forall_cons in Hall as [Hq Hl].
    destruct (Nat.eqb (p_req q) req).
    + injection Htake as <- <-. auto.
    + destruct (take_pending req l) as [[q' rest'] | ]; [ | discriminate].
      injection Htake as <- <-.
      destruct (IH q' rest' eq_refl Hl) as [Hq' Hrest'].
      split; [exact Hq' | constructor; assumption].
Qed.

Section KeyInvariant.

Variable k : JsProp.

Lemma key_inv_handle : forall w e, key_inv k w -> key_inv k (handle e w).
Proof.
  intros w e. break_world w. unfold key_inv. cbn.
  intros (Hk & Hp & Hh).
  destruct e; cbn; open_handlers; repeat (inner_case; cbn); auto;
    try match goal with
        | H : take_pending _ _ = Some _ |- _ =>
            destruct (take_pending_Forall _ _ _ _ _ H Hp)
        end;
    rewrite ?Forall_app, ?Forall_singleton; cbn; auto.
Qed.

Lemma key_inv_step : forall w e, key_inv k w -> key_inv k (step w e).
Proof.
  intros w e H. apply (key_inv_handle w e) in H. revert H.
  unfold step, key_inv.
  pose proof (refine_view_commit (layout w) (handle e w)) as Hv.
  unfold refine_view in Hv. injection Hv as _ Hp Hh.
  rewrite Hp, Hh, layout_commit. auto.
Qed.

Lemma key_inv_run : forall es w, key_inv k w -> key_inv k (run w es).
Proof.
  induction es as [ | e es IH]; intros w H; [exact H | ].
  rewrite run_cons. apply IH, key_inv_step, H.
Qed.

End KeyInvariant.

Lemma key_inv_mount : forall simulation, key_inv (xml_key simulation) (mount simulation).
Proof.
  intros simulation. unfold key_inv, mount.
  match goal with |- context [run_state_effect ?w] =>
    pose proof (refine_view_run_state_effect w) as H1;
    rewrite (layout_run_state_effect w) end.
  match goal with |- context [connection_effect ?w] =>
    pose proof (refine_view_connection_effect w) as H2;
    rewrite (layout_connection_effect w) end.
  unfold refine_view in H1, H2.
  injection H1 as _ -> ->. injection H2 as _ -> ->. cbn. auto.
Qed.

(** C3, as the code has it: [xml_key] never rotates.  Whatever happens
    after the layout is mounted with [simulation], successful applies
    included, [currentSim.xml_key] is the key of [simulation], and so is
    the key of every plan and apply request issued. *)
Theorem C3_xml_key_never_rotates : forall simulation es,
  let w := run (mount simulation) es in
  xml_key (currentSim (layout w)) = xml_key simulation /\
  Forall (fun r => request_key r = xml_key simulation) (http (browser w)).
Proof.
  intros simulation es w.
  destruct (key_inv_run _ es _ (key_inv_mount simulation)) as (Hk & _ & Hh).
  auto.
Qed.

(** C3 fails as stated: an apply succeeds (the document and the session id
    are replaced, the response even carries a new key), and the plan request
    of the next refine still carries the key that was current before it. *)
Lemma C3_counterexample :
  model_xml (currentSim (layout refined_twice)) = Some (JStr "<mujoco2/>") /\
  simulation_id (currentSim (layout refined_twice)) = Some (JStr "sim-2") /\
  xml_key (currentSim (layout refined_twice)) = xml_key sim1 /\
  http (browser refined_twice) !! 2 = Some (PlanEdits "again" (xml_key sim1)) /\
  xml_key sim1 <> Some (JStr "key-2").
Proof. vm_compute. repeat split; discriminate. Qed.

(** ** [onmessage]: telemetry frames *)

Lemma message_delivered : forall w i parsed,
  ready w i = Some OPEN ->
  step w (WsMessage i parsed) = commit (layout w) (onmessage parsed w).
Proof. intros w i parsed H. unfold step. cbn. rewrite H. reflexivity. Qed.

Lemma episode_frame_appended : forall w i v,
  ready w i = Some OPEN -> has_episode v = true ->
  data (dashboard (step w (WsMessage i (Some v)))) = data (dashboard w) ++ [v] /\
  ready (step w (WsMessage i (Some v))) i = Some OPEN.
Proof.
  intros w i v Hopen Hep. rewrite (message_delivered _ _ _ Hopen).
  unfold has_episode in Hep. unfold onmessage.
  destruct (get_prop v "episode") as [[episode | ] | ]; try discriminate.
  match goal with |- context [commit _ ?x] =>
    change (commit (layout w) x) with (commit (layout x) x) end.
  rewrite commit_same_layout. split; [reflexivity | exact Hopen].
Qed.

(** C1, as the code has it: every delivered frame that has an [episode]
    field is appended to [data], in arrival order and whatever its episode
    is; no frame is compared with the last point. *)
Theorem C1_every_episode_frame_is_appended : forall vs w i,
  ready w i = Some OPEN -> forallb has_episode vs = true ->
  data (dashboard (run w (map (fun v => WsMessage i (Some v)) vs))) =
    data (dashboard w) ++ vs.
Proof.
  induction vs as [ | v vs IH]; intros w i Hopen Hall.
  - simpl. rewrite app_nil_r. reflexivity.
  - simpl in Hall. apply andb_true_iff in Hall as [Hv Hvs].
    destruct (episode_frame_appended w i v Hopen Hv) as [Hdata Hopen'].
    cbn [map]. rewrite run_cons, (IH _ i Hopen' Hvs), Hdata, <- app_assoc.
    reflexivity.
Qed.

Lemma C1_every_episode_frame_is_appended_witness :
  data (dashboard (run opened (map (fun v => WsMessage 0 (Some v)) [point 3; point 2]))) =
    data (dashboard opened) ++ [point 3; point 2].
Proof.
  apply (C1_every_episode_frame_is_appended [point 3; point 2] opened 0); reflexivity.
Defined.

(** C1 fails as stated: frames with episodes 0, 1, 1, 3, 2, 4 leave a series
    whose episodes are 0 (the initial point), 0, 1, 1, 3, 2, 4: the duplicate
    and the stale frame were appended, and the series is not
    non-decreasing. *)
Lemma C1_counterexample :
  stale_series = [0; 0; 1; 1; 3; 2; 4]%Q /\
  stale_series <> [0; 1; 3; 4]%Q /\
  nondecreasing stale_series = false.
Proof. vm_compute. repeat split. discriminate. Qed.

Lemma terminal_frame_step : forall w i v,
  ready w i = Some OPEN -> terminal_frame v = true ->
  let w1 := step w (WsMessage i (Some v)) in
  data (dashboard w1) = data (dashboard w) /\
  isSimRunning (layout w1) = false /\
  (statusMessage (dashboard w1) = TrainingComplete \/
   exists error, statusMessage (dashboard w1) = ErrorMessage error) /\
  ready w1 i = Some OPEN.
Proof.
  intros w i v Hopen Hterm w1. subst w1.
  rewrite (message_delivered _ _ _ Hopen).
  unfold terminal_frame in Hterm. unfold onmessage.
  destruct (get_prop v "episode") as [[episode | ] | ]; try discriminate.
  destruct (get_prop v "status") as [status | ]; try discriminate.
  destruct (get_prop v "error") as [error | ]; try discriminate.
  break_world w. unfold ready in *. cbn in Hopen.
  destruct (strict_eq_str status "complete"); [ | cbn in Hterm; rewrite Hterm];
    unfold commit, deps_changed; rewrite prop_same_refl, N.eqb_refl; cbn;
    destruct w_running; cbn; unfold run_state_effect, ready; cbn;
    repeat (inner_case; cbn); repeat split; eauto.
Qed.

(** C2, as the code has it: a terminal frame changes the status message
    and not the series, but it latches nothing: the next frame with an
    [episode] field on the same socket is appended all the same. *)
Theorem C2_no_terminal_latch : forall w i v v',
  ready w i = Some OPEN -> terminal_frame v = true -> has_episode v' = true ->
  let w1 := step w (WsMessage i (Some v)) in
  data (dashboard w1) = data (dashboard w) /\
  (statusMessage (dashboard w1) = TrainingComplete \/
   exists error, statusMessage (dashboard w1) = ErrorMessage error) /\
  data (dashboard (step w1 (WsMessage i (Some v')))) = data (dashboard w) ++ [v'].
Proof.
  intros w i v v' Hopen Hterm Hep w1.
  destruct (terminal_frame_step w i v Hopen Hterm) as (Hdata & _ & Hmsg & Hopen1).
  fold w1 in Hdata, Hmsg, Hopen1.
  destruct (episode_frame_appended w1 i v' Hopen1 Hep) as [Hdata' _].
  rewrite Hdata', Hdata. auto.
Qed.

Lemma C2_no_terminal_latch_witness :
  data (dashboard (step opened (WsMessage 0 (Some (error_frame "diverged"))))) =
    data (dashboard opened) /\
  (statusMessage (dashboard (step opened (WsMessage 0 (Some (error_frame "diverged")))))
     = TrainingComplete \/
   exists error,
     statusMessage (dashboard (step opened (WsMessage 0 (Some (error_frame "diverged")))))
       = ErrorMessage error) /\
  data (dashboard (step (step opened (WsMessage 0 (Some (error_frame "diverged"))))
                        (WsMessage 0 (Some (point 2))))) =
    data (dashboard opened) ++ [point 2].
Proof.
  apply (C2_no_terminal_latch opened 0 (error_frame "diverged") (point 2)); reflexivity.
Defined.

(** C2 fails as stated: after the frames of episodes 0 and 1 and the
    complete frame, the status is the terminal one, and the frame of
    episode 2 that follows is appended to the series. *)
Lemma C2_counterexample :
  statusMessage (dashboard completed) = TrainingComplete /\
  data (dashboard after_completed) = data (dashboard completed) ++ [point 2] /\
  data (dashboard after_completed) <> data (dashboard completed).
Proof. vm_compute. repeat split. discriminate. Qed.

(** C9: a delivered frame on which [JSON.parse] throws changes nothing but
    the console, which gets the error entry: series, status, run flag,
    sockets, wire, requests and suspended calls are what they were. *)
Theorem C9_unparseable_frame_dropped : forall w i,
  ready w i = Some OPEN ->
  step w (WsMessage i None) = console_log ErrParseWs w.
Proof.
  intros w i Hopen. rewrite (message_delivered _ _ _ Hopen). cbn.
  apply (commit_same_layout (console_log ErrParseWs w)).
Qed.

Lemma C9_unparseable_frame_dropped_witness :
  step training (WsMessage 0 None) = console_log ErrParseWs training.
Proof.
  apply (C9_unparseable_frame_dropped training 0). reflexivity.
Defined.

Lemma paused_until_run : forall w e,
  is_ClickRun e = false -> isSimRunning (layout w) = false ->
  isSimRunning (layout (step w e)) = false.
Proof.
  intros w e He Hw. unfold step. rewrite layout_commit.
  break_world w. cbn in Hw. subst w_running.
  destruct e; try discriminate He; cbn; open_handlers;
    repeat (inner_case; cbn); reflexivity.
Qed.

(** C10, as the code has it: a delivered frame with no [episode] field
    and with [status === "complete"] or a truthy [error] sets the run flag
    to false, and the flag stays false through every later event until a
    click on Run. *)
Theorem C10_terminal_frame_pauses : forall es w i v,
  ready w i = Some OPEN -> terminal_frame v = true ->
  forallb (fun e => negb (is_ClickRun e)) es = true ->
  isSimRunning (layout (run (step w (WsMessage i (Some v))) es)) = false.
Proof.
  intros es w i v Hopen Hterm Hes.
  destruct (terminal_frame_step w i v Hopen Hterm) as (_ & Hpaused & _).
  revert Hpaused Hes. generalize (step w (WsMessage i (Some v))).
  induction es as [ | e es IH]; intros w1 Hpaused Hes; [exact Hpaused | ].
  simpl in Hes. apply andb_true_iff in Hes as [He Hes].
  apply negb_true_iff in He.
  rewrite run_cons. apply IH; [ | exact Hes].
  apply paused_until_run; assumption.
Qed.

Lemma C10_terminal_frame_pauses_witness :
  isSimRunning (layout opened) = true /\
  isSimRunning (layout (run (step opened (WsMessage 0 (Some complete_frame)))
                            [ClickReset; WsOpen 1; WsMessage 1 (Some (point 0))])) = false.
Proof.
  split; [reflexivity | ].
  apply (C10_terminal_frame_pauses
           [ClickReset; WsOpen 1; WsMessage 1 (Some (point 0))] opened 0 complete_frame);
    reflexivity.
Defined.

(** C10 fails as stated: a frame whose [error] field is the empty string
    has an error field, yet takes no branch of the handler; the run flag is
    still true after it. *)
Lemma C10_counterexample :
  get_prop (error_frame "") "error" = Some (Some (JStr "")) /\
  isSimRunning (layout opened) = true /\
  isSimRunning (layout (step opened (WsMessage 0 (Some (error_frame ""))))) = true /\
  statusMessage (dashboard (step opened (WsMessage 0 (Some (error_frame ""))))) =
    TrainingStarted.
Proof. vm_compute. repeat split. Qed.

(** ** The connection effect and the sockets *)

(** When a connecting socket opens, its [onopen] puts exactly one frame
    on the wire: the command for the [isRunning] of the render that
    created the socket. *)
Lemma open_sends_seen_run_state : forall w i s,
  sockets (browser w) !! i = Some s -> readyState s = CONNECTING ->
  wire (browser (step w (WsOpen i))) =
    wire (browser w) ++ [(i, command_of (seen_isRunning s))].
Proof.
  intros w i s Hs Hc. unfold step. cbn. rewrite Hs, Hc.
  match goal with |- context [commit _ ?x] =>
    change (commit (layout w) x) with (commit (layout x) x) end.
  rewrite commit_same_layout. reflexivity.
Qed.

(** C7 at the failing input: the layout is mounted running, the user
    clicks Pause while the socket is still connecting (nothing can be sent
    yet), then the socket opens.  The one frame on the wire says run, and
    the run flag, the user's intent at that moment, is false. *)
Theorem C7_open_sends_stale_run_state :
  isSimRunning (layout paused_before_open) = false /\
  ready paused_before_open 0 = Some OPEN /\
  wire (browser paused_before_open) = [(0, "run")].
Proof. vm_compute. repeat split. Qed.

Lemma handle_sockets : forall e w,
  sockets (browser (handle e w)) = sockets (browser w) \/
  (exists i s, sockets (browser w) !! i = Some s /\ readyState s = CONNECTING /\
     sockets (browser (handle e w)) = alter (with_readyState OPEN) i (sockets (browser w))) \/
  (exists i, sockets (browser (handle e w)) =
             alter (with_readyState CLOSED) i (sockets (browser w))).
Proof.
  intros e w. break_world w.
  destruct e; cbn; open_handlers; repeat (inner_case; cbn); eauto 7.
Qed.

Lemma handle_refs : forall e w,
  ws (dashboard (handle e w)) = ws (dashboard w) /\
  cleanup (dashboard (handle e w)) = cleanup (dashboard w).
Proof.
  intros e w. break_world w.
  destruct e; cbn; open_handlers; repeat (inner_case; cbn); auto.
Qed.

Lemma alive_closing : forall s, alive (closing s) = false.
Proof. intros [u [ | | | ] r m]; reflexivity. Qed.

Lemma closing_dead : forall s, alive s = false -> closing s = s.
Proof. intros [u [ | | | ] r m]; cbn; intros H; try discriminate; reflexivity. Qed.

Lemma sockets_run_state_effect : forall w,
  sockets (browser (run_state_effect w)) = sockets (browser w) /\
  dashboard (run_state_effect w) = dashboard w.
Proof.
  intros w. unfold run_state_effect.
  destruct (ws (dashboard w)) as [i | ]; [ | auto].
  destruct (ready w i) as [[ | | | ] | ]; auto.
Qed.

(** A socket that is closing or closed stays so. *)

Lemma dead_at_app : forall l l' i, dead_at l i -> dead_at (l ++ l') i.
Proof.
  intros l l' i (s & Hs & Hd). exists s. split; [ | exact Hd].
  apply lookup_app_l_Some. exact Hs.
Qed.

Lemma dead_at_alter : forall (f : WebSocket -> WebSocket) l i j,
  (forall s, alive s = false -> alive (f s) = false) ->
  dead_at l i -> dead_at (alter f j l) i.
Proof.
  intros f l i j Hf (s & Hs & Hd). destruct (decide (j = i)) as [-> | Hne].
  - exists (f s). rewrite list_lookup_alter_eq, Hs. auto.
  - exists s. rewrite list_lookup_alter_ne by exact Hne. auto.
Qed.

Lemma dead_at_handle : forall e w i,
  dead_at (sockets (browser w)) i -> dead_at (sockets (browser (handle e w))) i.
Proof.
  intros e w i Hd.
  destruct (handle_sockets e w) as [-> | [(j & s & Hj & Hc & ->) | (j & ->)]].
  - exact Hd.
  - destruct Hd as (s' & Hs' & Hdead). exists s'. split; [ | exact Hdead].
    rewrite list_lookup_alter_ne; [exact Hs' | ].
    intros ->. rewrite Hj in Hs'. injection Hs' as <-.
    unfold alive in Hdead. rewrite Hc in Hdead. discriminate.
  - apply dead_at_alter; [ | exact Hd]. reflexivity.
Qed.

Lemma dead_at_ws_close : forall j w i,
  dead_at (sockets (browser w)) i -> dead_at (sockets (browser (ws_close j w))) i.
Proof.
  intros j w i Hd. cbn. apply dead_at_alter; [ | exact Hd].
  intros s Hs. rewrite closing_dead by exact Hs. exact Hs.
Qed.

Lemma dead_at_run_cleanup : forall w i,
  dead_at (sockets (browser w)) i -> dead_at (sockets (browser (run_cleanup w))) i.
Proof.
  intros w i Hd. unfold run_cleanup.
  destruct (cleanup (dashboard w)); [apply dead_at_ws_close | ]; exact Hd.
Qed.

Lemma dead_at_connection_effect : forall w i,
  dead_at (sockets (browser w)) i ->
  dead_at (sockets (browser (connection_effect w))) i.
Proof.
  intros w i Hd. unfold connection_effect.
  destruct (truthy _); cbn; [ | exact Hd].
  apply dead_at_app.
  destruct (ws (dashboard w)); [apply dead_at_ws_close | ]; exact Hd.
Qed.

Lemma dead_at_commit : forall before w i,
  dead_at (sockets (browser w)) i -> dead_at (sockets (browser (commit before w))) i.
Proof.
  intros before w i Hd. unfold commit.
  destruct (deps_changed _ _); destruct (Bool.eqb _ _);
    rewrite ?(proj1 (sockets_run_state_effect _));
    try apply dead_at_connection_effect, dead_at_run_cleanup; exact Hd.
Qed.

Lemma dead_at_run : forall es w i,
  dead_at (sockets (browser w)) i -> dead_at (sockets (browser (run w es))) i.
Proof.
  induction es as [ | e es IH]; intros w i Hd; [exact Hd | ].
  rewrite run_cons. apply IH. unfold step. apply dead_at_commit, dead_at_handle, Hd.
Qed.

(** No frame is delivered to it, whatever arrives. *)
Lemma dead_socket_hears_nothing : forall w i parsed,
  dead_at (sockets (browser w)) i -> step w (WsMessage i parsed) = w.
Proof.
  intros w i parsed (s & Hs & Hd). unfold step. cbn. unfold ready. rewrite Hs. cbn.
  unfold alive in Hd. destruct (readyState s); try discriminate;
    apply commit_same_layout.
Qed.

(** At most one socket is connecting or open. *)

Lemma sock_inv_handle : forall e w, sock_inv w -> sock_inv (handle e w).
Proof.
  intros e w Hinv i s' Hs' Halive.
  destruct (handle_refs e w) as [-> ->].
  destruct (handle_sockets e w) as [Heq | [(j & s & Hj & Hc & Heq) | (j & Heq)]];
    rewrite Heq in Hs'.
  - exact (Hinv i s' Hs' Halive).
  - destruct (decide (j = i)) as [-> | Hne].
    + apply (Hinv i s Hj). unfold alive. rewrite Hc. reflexivity.
    + rewrite list_lookup_alter_ne in Hs' by exact Hne. exact (Hinv i s' Hs' Halive).
  - destruct (decide (j = i)) as [-> | Hne].
    + rewrite list_lookup_alter_eq in Hs'.
      destruct (sockets (browser w) !! i) as [s | ]; [ | discriminate].
      injection Hs' as <-. discriminate Halive.
    + rewrite list_lookup_alter_ne in Hs' by exact Hne. exact (Hinv i s' Hs' Halive).
Qed.

Lemma all_dead_run_cleanup : forall w,
  sock_inv w -> all_dead (sockets (browser (run_cleanup w))).
Proof.
  intros w Hinv i s Hs. unfold run_cleanup in Hs.
  destruct (cleanup (dashboard w)) as [c | ] eqn:Hc.
  - cbn in Hs. destruct (decide (c = i)) as [-> | Hne].
    + rewrite list_lookup_alter_eq in Hs.
      destruct (sockets (browser w) !! i) as [s0 | ]; [ | discriminate].
      injection Hs as <-. apply alive_closing.
    + rewrite list_lookup_alter_ne in Hs by exact Hne.
      destruct (alive s) eqn:Ha; [ | reflexivity].
      destruct (Hinv i s Hs Ha) as [_ Hc']. congruence.
  - destruct (alive s) eqn:Ha; [ | reflexivity].
    destruct (Hinv i s Hs Ha) as [_ Hc']. congruence.
Qed.

Lemma all_dead_ws_close : forall j w,
  all_dead (sockets (browser w)) -> all_dead (sockets (browser (ws_close j w))).
Proof.
  intros j w Hall i s Hs. cbn in Hs. destruct (decide (j = i)) as [-> | Hne].
  - rewrite list_lookup_alter_eq in Hs.
    destruct (sockets (browser w) !! i) as [s0 | ]; [ | discriminate].
    injection Hs as <-. apply alive_closing.
  - rewrite list_lookup_alter_ne in Hs by exact Hne. exact (Hall i s Hs).
Qed.

Lemma sock_inv_connection_effect : forall w,
  all_dead (sockets (browser w)) -> sock_inv (connection_effect w).
Proof.
  intros w Hall i s Hs Halive. unfold connection_effect in *.
  destruct (truthy _).
  - cbn in *.
    set (w' := match ws (dashboard w) with Some j => ws_close j w | None => w end) in *.
    assert (Hall' : all_dead (sockets (browser w'))).
    { unfold w'. destruct (ws (dashboard w)); [apply all_dead_ws_close | ]; exact Hall. }
    destruct (decide (i < List.length (sockets (browser w')))) as [Hlt | Hge].
    + rewrite lookup_app_l in Hs by exact Hlt.
      rewrite (Hall' i s Hs) in Halive. discriminate.
    + apply lookup_lt_Some in Hs as Hlen. rewrite length_app in Hlen. cbn in Hlen.
      assert (i = List.length (sockets (browser w'))) as -> by lia. auto.
  - cbn in *. rewrite (Hall i s Hs) in Halive. discriminate.
Qed.

Lemma sock_inv_commit : forall before w, sock_inv w -> sock_inv (commit before w).
Proof.
  intros before w Hinv. unfold commit.
  assert (Hrs : forall w0, sock_inv w0 -> sock_inv (run_state_effect w0)).
  { intros w0 H0. unfold sock_inv.
    destruct (sockets_run_state_effect w0) as [-> ->]. exact H0. }
  destruct (deps_changed _ _); destruct (Bool.eqb _ _);
    try apply Hrs; try apply sock_inv_connection_effect, all_dead_run_cleanup; exact Hinv.
Qed.

Lemma sock_inv_mount : forall simulation, sock_inv (mount simulation).
Proof.
  intros simulation. unfold mount, sock_inv.
  match goal with |- context [run_state_effect ?w] =>
    destruct (sockets_run_state_effect w) as [-> ->] end.
  apply sock_inv_connection_effect. intros i s Hs. discriminate Hs.
Qed.

Lemma reachable_sock_inv : forall w, reachable w -> sock_inv w.
Proof.
  intros w (simulation & es & ->).
  generalize (sock_inv_mount simulation). generalize (mount simulation).
  induction es as [ | e es IH]; intros w0 H0; [exact H0 | ].
  rewrite run_cons. apply IH. unfold step. apply sock_inv_commit, sock_inv_handle, H0.
Qed.

Lemma connection_effect_resets : forall w,
  truthy (simulation_id (currentSim (layout w))) = true ->
  data (dashboard (connection_effect w)) = getInitialData /\
  statusMessage (dashboard (connection_effect w)) = ConnectingToServer.
Proof.
  intros w Hid. unfold connection_effect. rewrite Hid. cbn.
  destruct (ws (dashboard w)); auto.
Qed.

(** What a render does when the dependencies of the connection effect
    changed and the new [simulationId] is truthy. *)
Lemma commit_reconnects : forall before w,
  sock_inv w -> deps_changed before (layout w) = true ->
  truthy (simulation_id (currentSim (layout w))) = true ->
  data (dashboard (commit before w)) = getInitialData /\
  statusMessage (dashboard (commit before w)) = ConnectingToServer /\
  (forall i, i < List.length (sockets (browser w)) ->
             dead_at (sockets (browser (commit before w))) i).
Proof.
  intros before w Hinv Hdeps Hid. unfold commit. rewrite Hdeps.
  set (w1 := run_cleanup w).
  assert (Hall : all_dead (sockets (browser w1))) by (apply all_dead_run_cleanup, Hinv).
  assert (Hlen : List.length (sockets (browser w1)) = List.length (sockets (browser w))).
  { unfold w1, run_cleanup. destruct (cleanup (dashboard w)); [ | reflexivity].
    cbn. apply length_alter. }
  assert (Hold : forall i, i < List.length (sockets (browser w)) ->
                           dead_at (sockets (browser (connection_effect w1))) i).
  { intros i Hi. apply dead_at_connection_effect.
    rewrite <- Hlen in Hi. apply lookup_lt_is_Some_2 in Hi as [s Hs].
    exists s. split; [exact Hs | exact (Hall i s Hs)]. }
  assert (Hdash : data (dashboard (connection_effect w1)) = getInitialData /\
                  statusMessage (dashboard (connection_effect w1)) = ConnectingToServer).
  { apply connection_effect_resets. unfold w1. rewrite layout_run_cleanup. exact Hid. }
  destruct (Bool.eqb _ _).
  - destruct Hdash. auto.
  - destruct (sockets_run_state_effect (connection_effect w1)) as [-> ->].
    destruct Hdash. auto.
Qed.

(** C8, as the code has it: when an event changes [simulationId] or
    [resetTrigger] and the [simulationId] is truthy, the series becomes
    [getInitialData()], the single point of episode 0 (not the empty
    series), the status message becomes the connecting one, and every
    socket created before is closing or closed: whatever happens next, a
    frame addressed to one of them is not delivered and changes nothing. *)
Theorem C8_reset_reinitialises : forall w e,
  reachable w ->
  deps_changed (layout w) (layout (step w e)) = true ->
  truthy (simulation_id (currentSim (layout (step w e)))) = true ->
  data (dashboard (step w e)) = getInitialData /\
  statusMessage (dashboard (step w e)) = ConnectingToServer /\
  (forall i es parsed, i < List.length (sockets (browser w)) ->
     let w' := run (step w e) es in step w' (WsMessage i parsed) = w').
Proof.
  intros w e Hreach Hdeps Hid. unfold step in *. rewrite layout_commit in Hdeps, Hid.
  assert (Hinv : sock_inv (handle e w)) by (apply sock_inv_handle, reachable_sock_inv, Hreach).
  destruct (commit_reconnects (layout w) (handle e w) Hinv Hdeps Hid) as (Hd & Hm & Hold).
  split; [exact Hd | split; [exact Hm | ]].
  intros i es parsed Hi. cbv zeta. apply dead_socket_hears_nothing.
  apply dead_at_run, Hold.
  destruct (handle_sockets e w) as [-> | [(j & s & _ & _ & ->) | (j & ->)]];
    rewrite ?length_alter; exact Hi.
Qed.

Lemma C8_reset_reinitialises_witness :
  data (dashboard training) = getInitialData ++ [point 0; point 1] /\
  data (dashboard (step training ClickReset)) = getInitialData /\
  statusMessage (dashboard (step training ClickReset)) = ConnectingToServer /\
  (forall i es parsed, i < List.length (sockets (browser training)) ->
     let w' := run (step training ClickReset) es in step w' (WsMessage i parsed) = w').
Proof.
  split; [reflexivity | ].
  apply (C8_reset_reinitialises training ClickReset).
  - exists sim1, [WsOpen 0; WsMessage 0 (Some (point 0)); WsMessage 0 (Some (point 1))].
    reflexivity.
  - reflexivity.
  - reflexivity.
Defined.

(** C8 fails as stated: after a reset the series is not empty, it holds
    the point [{episode: 0, reward: 0, length: 0}]; and when a successful
    apply hands back an empty [simulation_id], the effect returns at its
    guard and the series keeps the points of the previous session. *)
Lemma C8_counterexample :
  data (dashboard (step training ClickReset)) =
    [JObj [("episode", num 0); ("reward", num 0); ("length", num 0)]] /\
  data (dashboard (step training ClickReset)) <> [] /\
  simulation_id (currentSim (layout (run training (UserType "stronger legs" :: applied_call ""))))
    = Some (JStr "") /\
  data (dashboard (run training (UserType "stronger legs" :: applied_call ""))) =
    getInitialData ++ [point 0; point 1].
Proof. vm_compute. repeat split. discriminate. Qed.

(** * Further properties of the page *)

(** ** The run-state effect and the wire *)

(** X1: A click on Run or Pause while the current socket is open sends the new
    run state once when it differs from the old one, and nothing when it
    does not. *)
Theorem click_sends_changed_run_state : forall w i (running : bool),
  ws (dashboard w) = Some i -> ready w i = Some OPEN ->
  wire (browser (step w (click running))) =
    wire (browser w) ++
      (if Bool.eqb (isSimRunning (layout w)) running then []
       else [(i, command_of running)]).
Proof.
  intros w i running Hws Hopen. break_world w. cbn in Hws. subst w_ws.
  unfold ready in Hopen. cbn in Hopen.
  destruct running, w_running; unfold step, commit, deps_changed; cbn;
    rewrite prop_same_refl, N.eqb_refl; cbn;
    unfold run_state_effect, ready; cbn; rewrite ?Hopen; cbn;
    rewrite ?app_nil_r; reflexivity.
Qed.

Lemma click_sends_changed_run_state_witness :
  wire (browser (step opened (click false))) = wire (browser opened) ++ [(0, "pause")].
Proof.
  apply (click_sends_changed_run_state opened 0 false); reflexivity.
Defined.

(** X2: A click on Run or Pause while the current socket is not open (still
    connecting, closing, closed, or none) puts nothing on the wire: the
    command is not queued. *)
Theorem click_while_not_open_is_dropped : forall w (running : bool),
  (forall i, ws (dashboard w) = Some i -> ready w i <> Some OPEN) ->
  wire (browser (step w (click running))) = wire (browser w).
Proof.
  intros w running Hnot. break_world w. cbn in Hnot.
  destruct running, w_running; unfold step, commit, deps_changed; cbn;
    rewrite prop_same_refl, N.eqb_refl; cbn; try reflexivity;
    unfold run_state_effect, ready; cbn;
    (destruct w_ws as [i | ]; [ | reflexivity]);
    specialize (Hnot i eq_refl); unfold ready in Hnot; cbn in Hnot;
    destruct (readyState <$> w_sockets !! i) as [[ | | | ] | ]; try reflexivity;
    contradiction.
Qed.

Lemma click_while_not_open_is_dropped_witness :
  wire (browser (step (mount sim1) (click false))) = wire (browser (mount sim1)).
Proof.
  apply (click_while_not_open_is_dropped (mount sim1) false).
  intros i Hi. vm_compute in Hi. injection Hi as <-. vm_compute. discriminate.
Defined.

Lemma run_or_pause_command_of : forall i b, run_or_pause (i, command_of b).
Proof. intros i [ | ]; [left | right]; reflexivity. Qed.

Lemma wire_run_cleanup : forall w, wire (browser (run_cleanup w)) = wire (browser w).
Proof. intros w. unfold run_cleanup. destruct (cleanup (dashboard w)); reflexivity. Qed.

Lemma wire_connection_effect : forall w,
  wire (browser (connection_effect w)) = wire (browser w).
Proof.
  intros w. unfold connection_effect. destruct (truthy _); cbn; [ | reflexivity].
  destruct (ws (dashboard w)); reflexivity.
Qed.

Lemma wire_run_state_effect : forall w,
  Forall run_or_pause (wire (browser w)) ->
  Forall run_or_pause (wire (browser (run_state_effect w))).
Proof.
  intros w H. unfold run_state_effect.
  destruct (ws (dashboard w)) as [i | ]; [ | exact H].
  destruct (ready w i) as [[ | | | ] | ]; try exact H.
  cbn. apply Forall_app. split; [exact H | ].
  constructor; [apply run_or_pause_command_of | constructor].
Qed.

Lemma wire_handle : forall e w,
  Forall run_or_pause (wire (browser w)) ->
  Forall run_or_pause (wire (browser (handle e w))).
Proof.
  intros e w. break_world w. cbn. intros H.
  destruct e; cbn; open_handlers; repeat (inner_case; cbn); auto;
    apply Forall_app; (split; [exact H | ]);
    (constructor; [apply run_or_pause_command_of | constructor]).
Qed.

Lemma wire_step : forall w e,
  Forall run_or_pause (wire (browser w)) ->
  Forall run_or_pause (wire (browser (step w e))).
Proof.
  intros w e H. unfold step, commit. apply (wire_handle e) in H.
  destruct (deps_changed _ _); destruct (Bool.eqb _ _);
    try apply wire_run_state_effect;
    rewrite ?wire_connection_effect, ?wire_run_cleanup; exact H.
Qed.

(** X3: The only commands the page ever sends are run and pause; in
    particular the Reset button sends no reset command. *)
Theorem wire_only_run_or_pause : forall w,
  reachable w -> Forall run_or_pause (wire (browser w)).
Proof.
  intros w (simulation & es & ->).
  assert (H0 : Forall run_or_pause (wire (browser (mount simulation)))).
  { unfold mount. apply wire_run_state_effect. rewrite wire_connection_effect.
    constructor. }
  revert H0. generalize (mount simulation).
  induction es as [ | e es IH]; intros w0 H0; [exact H0 | ].
  rewrite run_cons. apply IH, wire_step, H0.
Qed.

Lemma wire_only_run_or_pause_witness :
  Forall run_or_pause (wire (browser (run paused_before_open [ClickReset; WsOpen 1]))).
Proof.
  apply (wire_only_run_or_pause (run paused_before_open [ClickReset; WsOpen 1])).
  exists sim1, [ClickPause; WsOpen 0; ClickReset; WsOpen 1]. vm_compute. reflexivity.
Defined.

(** ** Sockets *)

(** X4: At any time at most one socket is connecting or open, and it is the
    one the [ws] ref holds. *)
Theorem at_most_one_live_socket : forall w i j s s',
  reachable w ->
  sockets (browser w) !! i = Some s -> alive s = true ->
  sockets (browser w) !! j = Some s' -> alive s' = true ->
  i = j /\ ws (dashboard w) = Some i.
Proof.
  intros w i j s s' Hreach Hi Hai Hj Haj.
  apply reachable_sock_inv in Hreach.
  destruct (Hreach i s Hi Hai) as [Hwi _].
  destruct (Hreach j s' Hj Haj) as [Hwj _].
  split; [congruence | exact Hwi].
Qed.

Lemma at_most_one_live_socket_witness :
  1 = 1 /\ ws (dashboard (step training ClickReset)) = Some 1.
Proof.
  apply (at_most_one_live_socket (step training ClickReset) 1 1
           (mkWebSocket (Some (JStr "sim-1")) CONNECTING true (TrainingEpisode (num 1)))
           (mkWebSocket (Some (JStr "sim-1")) CONNECTING true (TrainingEpisode (num 1))));
    try reflexivity.
  exists sim1, [WsOpen 0; WsMessage 0 (Some (point 0)); WsMessage 0 (Some (point 1));
                ClickReset].
  vm_compute. reflexivity.
Defined.

Lemma open_is_current : forall w i,
  reachable w -> ready w i = Some OPEN -> ws (dashboard w) = Some i.
Proof.
  intros w i Hreach Hopen. apply reachable_sock_inv in Hreach.
  unfold ready in Hopen.
  destruct (sockets (browser w) !! i) as [s | ] eqn:Hs; [ | discriminate].
  cbn in Hopen. injection Hopen as Hopen.
  apply (Hreach i s Hs). unfold alive. rewrite Hopen. reflexivity.
Qed.

(** ** Frames *)

(** X5: A terminal frame that arrives while training runs makes the page send
    pause on the socket it arrived on; when training is already paused it
    sends nothing. *)
Theorem terminal_frame_sends_pause : forall w i v,
  reachable w -> ready w i = Some OPEN -> terminal_frame v = true ->
  wire (browser (step w (WsMessage i (Some v)))) =
    wire (browser w) ++ (if isSimRunning (layout w) then [(i, "pause")] else []).
Proof.
  intros w i v Hreach Hopen Hterm.
  pose proof (open_is_current w i Hreach Hopen) as Hws.
  rewrite (message_delivered _ _ _ Hopen).
  unfold terminal_frame in Hterm. unfold onmessage.
  destruct (get_prop v "episode") as [[episode | ] | ]; try discriminate.
  destruct (get_prop v "status") as [status | ]; try discriminate.
  destruct (get_prop v "error") as [error | ]; try discriminate.
  break_world w. unfold ready in *. cbn in Hopen, Hws. subst w_ws.
  destruct (strict_eq_str status "complete"); [ | cbn in Hterm; rewrite Hterm];
    unfold commit, deps_changed; rewrite prop_same_refl, N.eqb_refl; cbn;
    destruct w_running; cbn; unfold run_state_effect, ready; cbn;
    rewrite ?Hopen; cbn; rewrite ?app_nil_r; reflexivity.
Qed.

Lemma terminal_frame_sends_pause_witness :
  wire (browser (step training (WsMessage 0 (Some complete_frame)))) =
    wire (browser training) ++ [(0, "pause")].
Proof.
  apply (terminal_frame_sends_pause training 0 complete_frame); try reflexivity.
  exists sim1, [WsOpen 0; WsMessage 0 (Some (point 0)); WsMessage 0 (Some (point 1))].
  vm_compute. reflexivity.
Defined.

(** X6: The [episode] field decides first: a frame that has one is a
    telemetry point whatever else it carries, a completion status or an
    error included; it is appended, and neither pauses training nor sends
    anything. *)
Theorem episode_field_takes_precedence : forall w i v episode,
  ready w i = Some OPEN -> get_prop v "episode" = Some (Some episode) ->
  step w (WsMessage i (Some v)) =
    (w |> setData (fun currentData => currentData ++ [v])
       |> setStatusMessage (TrainingEpisode episode)).
Proof.
  intros w i v episode Hopen Hep. rewrite (message_delivered _ _ _ Hopen).
  unfold onmessage. rewrite Hep.
  match goal with |- context [commit _ ?x] =>
    change (commit (layout w) x) with (commit (layout x) x) end.
  apply commit_same_layout.
Qed.

Lemma episode_field_takes_precedence_witness :
  terminal_frame (JObj [("status", JStr "complete")]) = true /\
  step opened (WsMessage 0 (Some mixed_frame)) =
    (opened |> setData (fun currentData => currentData ++ [mixed_frame])
            |> setStatusMessage (TrainingEpisode (num 7))).
Proof.
  split; [reflexivity | ].
  apply (episode_field_takes_precedence opened 0 mixed_frame (num 7)); reflexivity.
Defined.

(** X7: A frame that parses but is neither a point nor terminal changes
    nothing at all, except that [null] is logged like a parse failure. *)
Theorem unrecognised_frame_ignored : forall w i v,
  ready w i = Some OPEN -> has_episode v = false -> terminal_frame v = false ->
  step w (WsMessage i (Some v)) =
    match v with JNull => console_log ErrParseWs w | _ => w end.
Proof.
  intros w i v Hopen Hep Hterm. rewrite (message_delivered _ _ _ Hopen).
  unfold has_episode, terminal_frame in *. unfold onmessage.
  destruct v; cbn in *;
    try (match goal with |- context [commit _ ?x] =>
           change (commit (layout w) x) with (commit (layout x) x) end;
         apply commit_same_layout);
    repeat (inner_case; cbn in *); try discriminate;
    try (match goal with |- context [commit _ ?x] =>
           change (commit (layout w) x) with (commit (layout x) x) end;
         apply commit_same_layout).
Qed.

Lemma unrecognised_frame_ignored_witness :
  step training (WsMessage 0 (Some heartbeat_frame)) = training.
Proof.
  apply (unrecognised_frame_ignored training 0 heartbeat_frame); reflexivity.
Defined.

(** ** Connections come and go only through the connection effect *)

Lemma handle_keeps_deps : forall e w,
  reconnects e = false ->
  currentSim (layout (handle e w)) = currentSim (layout w) /\
  resetTrigger (layout (handle e w)) = resetTrigger (layout w).
Proof.
  intros e w He. break_world w.
  destruct e; try discriminate He; cbn; open_handlers;
    repeat (inner_case; cbn); auto.
Qed.

Lemma step_without_reconnect : forall e w,
  reconnects e = false ->
  step w e = (if Bool.eqb (isSimRunning (layout w)) (isSimRunning (layout (handle e w)))
              then handle e w else run_state_effect (handle e w)).
Proof.
  intros e w He. destruct (handle_keeps_deps e w He) as [Hs Ht].
  unfold step, commit, deps_changed. rewrite Hs, Ht, prop_same_refl, N.eqb_refl.
  reflexivity.
Qed.

Lemma all_dead_handle : forall e w,
  all_dead (sockets (browser w)) -> all_dead (sockets (browser (handle e w))).
Proof.
  intros e w Hall i s' Hs'.
  destruct (alive s') eqn:Ha; [ | reflexivity].
  destruct (handle_sockets e w) as [Heq | [(j & s & Hj & Hc & Heq) | (j & Heq)]];
    rewrite Heq in Hs'.
  - rewrite (Hall i s' Hs') in Ha. discriminate.
  - specialize (Hall j s Hj). unfold alive in Hall. rewrite Hc in Hall. discriminate.
  - destruct (decide (j = i)) as [-> | Hne].
    + rewrite list_lookup_alter_eq in Hs'.
      destruct (sockets (browser w) !! i); [ | discriminate].
      injection Hs' as <-. discriminate Ha.
    + rewrite list_lookup_alter_ne in Hs' by exact Hne.
      rewrite (Hall i s' Hs') in Ha. discriminate.
Qed.

Lemma length_sockets_handle : forall e w,
  List.length (sockets (browser (handle e w))) = List.length (sockets (browser w)).
Proof.
  intros e w.
  destruct (handle_sockets e w) as [-> | [(j & s & _ & _ & ->) | (j & ->)]];
    rewrite ?length_alter; reflexivity.
Qed.

Lemma no_reconnect_step : forall e w,
  reconnects e = false -> all_dead (sockets (browser w)) ->
  all_dead (sockets (browser (step w e))) /\
  List.length (sockets (browser (step w e))) = List.length (sockets (browser w)).
Proof.
  intros e w He Hall. rewrite (step_without_reconnect e w He).
  destruct (Bool.eqb _ _);
    rewrite ?(proj1 (sockets_run_state_effect _)), length_sockets_handle;
    (split; [apply all_dead_handle, Hall | reflexivity]).
Qed.

Lemma sockets_onclose : forall s w,
  sockets (browser (onclose s w)) = sockets (browser w).
Proof. intros s w. unfold onclose. destruct (startsWith_Training _); reflexivity. Qed.

Lemma close_event_sockets : forall w i j s',
  sockets (browser (handle (WsClose i) w)) !! j = Some s' ->
  (j = i /\ alive s' = false) \/ (j <> i /\ sockets (browser w) !! j = Some s').
Proof.
  intros w i j s'. cbn.
  destruct (sockets (browser w) !! i) as [si | ] eqn:Hsi.
  - destruct (decide (j = i)) as [-> | Hne].
    + intros Hs'. left. split; [reflexivity | ].
      destruct (readyState si) eqn:Hr;
        try (rewrite sockets_onclose in Hs'; cbn in Hs';
             rewrite list_lookup_alter_eq, Hsi in Hs'; injection Hs' as <-;
             reflexivity).
      rewrite Hsi in Hs'. injection Hs' as <-. unfold alive. rewrite Hr. reflexivity.
    + intros Hs'. right. split; [exact Hne | ].
      destruct (readyState si); try exact Hs';
        rewrite sockets_onclose in Hs'; cbn in Hs';
        rewrite list_lookup_alter_ne in Hs' by congruence; exact Hs'.
  - intros Hs'. right. split; [congruence | exact Hs'].
Qed.

(** X8: There is no automatic reconnection: once the current socket has
    closed, no socket is connecting or open and none is created, whatever
    happens, until Reset is clicked or a fetch of a refine settles. *)
Theorem lost_connection_stays_lost : forall es w i,
  reachable w -> ws (dashboard w) = Some i ->
  forallb (fun e => negb (reconnects e)) es = true ->
  let w' := run (step w (WsClose i)) es in
  all_dead (sockets (browser w')) /\
  List.length (sockets (browser w')) = List.length (sockets (browser w)).
Proof.
  intros es w i Hreach Hws Hes.
  assert (H0 : all_dead (sockets (browser (step w (WsClose i)))) /\
               List.length (sockets (browser (step w (WsClose i)))) =
               List.length (sockets (browser w))).
  { rewrite (step_without_reconnect (WsClose i) w eq_refl).
    assert (Hh : all_dead (sockets (browser (handle (WsClose i) w)))).
    { apply reachable_sock_inv in Hreach. intros j s' Hs'.
      destruct (close_event_sockets w i j s' Hs') as [[_ Hd] | [Hne Hj]];
        [exact Hd | ].
      destruct (alive s') eqn:Ha; [ | reflexivity].
      destruct (Hreach j s' Hj Ha) as [Hwj _]. congruence. }
    destruct (Bool.eqb _ _);
      rewrite ?(proj1 (sockets_run_state_effect _)), length_sockets_handle;
      (split; [exact Hh | reflexivity]). }
  cbv zeta. destruct H0 as [Hd Hl]. rewrite <- Hl. clear Hl.
  revert Hd Hes. generalize (step w (WsClose i)).
  induction es as [ | e es IH]; intros w0 Hd Hes; [auto | ].
  simpl in Hes. apply andb_true_iff in Hes as [He Hes]. apply negb_true_iff in He.
  destruct (no_reconnect_step e w0 He Hd) as [Hd' Hl'].
  rewrite run_cons. destruct (IH _ Hd' Hes) as [Hd2 Hl2].
  split; [exact Hd2 | congruence].
Qed.

Lemma lost_connection_stays_lost_witness :
  all_dead (sockets (browser (run (step training (WsClose 0))
                                  [ClickPause; ClickRun; WsOpen 0; SubmitRefine]))) /\
  List.length (sockets (browser (run (step training (WsClose 0))
                                     [ClickPause; ClickRun; WsOpen 0; SubmitRefine]))) =
    List.length (sockets (browser training)).
Proof.
  apply (lost_connection_stays_lost [ClickPause; ClickRun; WsOpen 0; SubmitRefine]
           training 0); try reflexivity.
  exists sim1, [WsOpen 0; WsMessage 0 (Some (point 0)); WsMessage 0 (Some (point 1))].
  vm_compute. reflexivity.
Defined.

Lemma run_cleanup_keeps : forall w,
  layout (run_cleanup w) = layout w /\ dashboard (run_cleanup w) = dashboard w /\
  List.length (sockets (browser (run_cleanup w))) = List.length (sockets (browser w)).
Proof.
  intros w. unfold run_cleanup. destruct (cleanup (dashboard w)); cbn;
    rewrite ?length_alter; auto.
Qed.

Lemma connection_effect_connects : forall w,
  truthy (simulation_id (currentSim (layout w))) = true ->
  let n := List.length (sockets (browser w)) in
  sockets (browser (connection_effect w)) !! n =
    Some (mkWebSocket (simulation_id (currentSim (layout w))) CONNECTING
                      (isSimRunning (layout w)) (statusMessage (dashboard w))) /\
  ws (dashboard (connection_effect w)) = Some n.
Proof.
  intros w Hid n. unfold connection_effect. rewrite Hid. cbn.
  assert (Hlen : List.length
            (sockets (browser match ws (dashboard w) with
                              | Some i => ws_close i w | None => w end)) = n).
  { destruct (ws (dashboard w)); cbn; rewrite ?length_alter; reflexivity. }
  rewrite Hlen. split; [ | reflexivity].
  rewrite lookup_app_r by lia. rewrite Hlen, Nat.sub_diag.
  destruct (ws (dashboard w)); reflexivity.
Qed.

Lemma commit_connects : forall before w,
  deps_changed before (layout w) = true ->
  truthy (simulation_id (currentSim (layout w))) = true ->
  exists n s,
    ws (dashboard (commit before w)) = Some n /\
    sockets (browser (commit before w)) !! n = Some s /\
    url_id s = simulation_id (currentSim (layout w)) /\
    readyState s = CONNECTING /\
    seen_isRunning s = isSimRunning (layout w) /\
    n = List.length (sockets (browser w)).
Proof.
  intros before w Hdeps Hid. unfold commit. rewrite Hdeps.
  destruct (run_cleanup_keeps w) as (Hl & Hd & Hlen).
  assert (Hid' : truthy (simulation_id (currentSim (layout (run_cleanup w)))) = true)
    by (rewrite Hl; exact Hid).
  destruct (connection_effect_connects (run_cleanup w) Hid') as (Hnew & Hws).
  rewrite Hlen, Hl in Hnew. rewrite Hlen in Hws.
  eexists _, _.
  destruct (Bool.eqb _ _);
    rewrite ?(proj2 (sockets_run_state_effect _)), ?(proj1 (sockets_run_state_effect _));
    (split; [exact Hws | split; [exact Hnew | repeat split]]).
Qed.

(** X9: Reset keeps the run intent: the socket it creates, once it opens, is
    sent the run state the layout was in when Reset was clicked, so that
    pausing and then resetting does not resume training. *)
Theorem reset_reasserts_run_state : forall w,
  truthy (simulation_id (currentSim (layout w))) = true ->
  let n := List.length (sockets (browser w)) in
  wire (browser (run w [ClickReset; WsOpen n])) =
    wire (browser w) ++ [(n, command_of (isSimRunning (layout w)))].
Proof.
  intros w Hid n. change (run w [ClickReset; WsOpen n])
    with (step (step w ClickReset) (WsOpen n)).
  assert (Hdeps : deps_changed (layout w) (layout (handle ClickReset w)) = true).
  { unfold deps_changed. cbn.
    replace (N.eqb _ _) with false; [apply orb_true_r | ].
    symmetry. apply N.eqb_neq. lia. }
  destruct (commit_connects (layout w) (handle ClickReset w) Hdeps Hid)
    as (m & s & _ & Hs & _ & Hrs & Hseen & Hm).
  change (commit (layout w) (handle ClickReset w)) with (step w ClickReset) in Hs.
  change (List.length (sockets (browser (handle ClickReset w)))) with n in Hm.
  subst m.
  assert (Hw : wire (browser (step w ClickReset)) = wire (browser w)).
  { unfold step, commit. rewrite Hdeps. cbn. rewrite Bool.eqb_reflx.
    rewrite wire_connection_effect, wire_run_cleanup. reflexivity. }
  rewrite (open_sends_seen_run_state _ n s Hs Hrs), Hw, Hseen. reflexivity.
Qed.

Lemma reset_reasserts_run_state_witness :
  wire (browser (run paused_connecting [ClickReset; WsOpen 1])) = [(1, "pause")].
Proof.
  apply (reset_reasserts_run_state paused_connecting). reflexivity.
Defined.

(** What a socket's handlers closed over never changes afterwards. *)

Lemma closure_alter :
  forall (f : WebSocket -> WebSocket) (l : list WebSocket) (i j : nat) s,
  (forall x, same_closure x (f x)) ->
  l !! i = Some s -> exists s', alter f j l !! i = Some s' /\ same_closure s s'.
Proof.
  intros f l i j s Hf Hs. destruct (decide (j = i)) as [-> | Hne].
  - exists (f s). rewrite list_lookup_alter_eq, Hs. split; [reflexivity | apply Hf].
  - exists s. rewrite list_lookup_alter_ne by exact Hne.
    split; [exact Hs | repeat split].
Qed.

Lemma closure_closing : forall x, same_closure x (closing x).
Proof. intros [u [ | | | ] r m]; repeat split. Qed.

Lemma same_closure_trans : forall a b c,
  same_closure a b -> same_closure b c -> same_closure a c.
Proof. intros a b c (H1 & H2 & H3) (H4 & H5 & H6). repeat split; congruence. Qed.

Lemma closure_handle : forall e w i s,
  sockets (browser w) !! i = Some s ->
  exists s', sockets (browser (handle e w)) !! i = Some s' /\ same_closure s s'.
Proof.
  intros e w i s Hs.
  destruct (handle_sockets e w) as [-> | [(j & s0 & _ & _ & ->) | (j & ->)]].
  - exists s. split; [exact Hs | repeat split].
  - apply closure_alter; [ | exact Hs]. intros x. repeat split.
  - apply closure_alter; [ | exact Hs]. intros x. repeat split.
Qed.

Lemma closure_run_cleanup : forall w i s,
  sockets (browser w) !! i = Some s ->
  exists s', sockets (browser (run_cleanup w)) !! i = Some s' /\ same_closure s s'.
Proof.
  intros w i s Hs. unfold run_cleanup. destruct (cleanup (dashboard w)).
  - cbn. apply closure_alter; [apply closure_closing | exact Hs].
  - exists s. split; [exact Hs | repeat split].
Qed.

Lemma closure_connection_effect : forall w i s,
  sockets (browser w) !! i = Some s ->
  exists s', sockets (browser (connection_effect w)) !! i = Some s' /\ same_closure s s'.
Proof.
  intros w i s Hs. unfold connection_effect. destruct (truthy _); cbn.
  - destruct (ws (dashboard w)) as [j | ]; cbn.
    + destruct (closure_alter closing _ i j s closure_closing Hs) as (s' & Hs' & Hc).
      exists s'. split; [apply lookup_app_l_Some, Hs' | exact Hc].
    + exists s. split; [apply lookup_app_l_Some, Hs | repeat split].
  - exists s. split; [exact Hs | repeat split].
Qed.

Lemma closure_step : forall w e i s,
  sockets (browser w) !! i = Some s ->
  exists s', sockets (browser (step w e)) !! i = Some s' /\ same_closure s s'.
Proof.
  intros w e i s Hs. unfold step, commit.
  destruct (closure_handle e w i s Hs) as (s1 & Hs1 & Hc1).
  destruct (closure_run_cleanup _ i s1 Hs1) as (s2 & Hs2 & Hc2).
  destruct (closure_connection_effect _ i s2 Hs2) as (s3 & Hs3 & Hc3).
  destruct (deps_changed _ _); destruct (Bool.eqb _ _);
    rewrite ?(proj1 (sockets_run_state_effect _)); eauto using same_closure_trans.
Qed.

Lemma closure_run : forall es w i s,
  sockets (browser w) !! i = Some s ->
  exists s', sockets (browser (run w es)) !! i = Some s' /\ same_closure s s'.
Proof.
  induction es as [ | e es IH]; intros w i s Hs.
  - exists s. split; [exact Hs | repeat split].
  - rewrite run_cons. destruct (closure_step w e i s Hs) as (s1 & Hs1 & Hc1).
    destruct (IH _ i s1 Hs1) as (s2 & Hs2 & Hc2).
    eauto using same_closure_trans.
Qed.

(** X10: The socket opened when the layout mounts closed over the connecting
    status message, which does not start with Training: when that socket
    closes, at any time, its [onclose] leaves the status message as it is
    and never shows that the connection was lost. *)
Theorem first_connection_loss_not_reported : forall simulation es,
  truthy (simulation_id simulation) = true ->
  let w := run (mount simulation) es in
  statusMessage (dashboard (step w (WsClose 0))) = statusMessage (dashboard w).
Proof.
  intros simulation es Hid w.
  assert (H0 : exists s, sockets (browser (mount simulation)) !! 0 = Some s /\
                         seen_statusMessage s = ConnectingToServer).
  { unfold mount. rewrite (proj1 (sockets_run_state_effect _)).
    unfold connection_effect. cbn. rewrite Hid. cbn. eauto. }
  destruct H0 as (s0 & Hs0 & Hseen0).
  destruct (closure_run es _ 0 s0 Hs0) as (s & Hs & _ & _ & Hseen).
  fold w in Hs. rewrite Hseen0 in Hseen.
  unfold step, commit.
  assert (Hl : layout (handle (WsClose 0) w) = layout w /\
               statusMessage (dashboard (handle (WsClose 0) w)) = statusMessage (dashboard w)).
  { cbn. rewrite Hs. unfold onclose. rewrite Hseen. cbn.
    destruct (readyState s); auto. }
  destruct Hl as [Hl Hm]. rewrite Hl.
  unfold deps_changed. rewrite prop_same_refl, N.eqb_refl, Bool.eqb_reflx. exact Hm.
Qed.

Lemma first_connection_loss_not_reported_witness :
  statusMessage (dashboard (step (run (mount sim1)
      [WsOpen 0; WsMessage 0 (Some (point 0)); WsMessage 0 (Some (point 1))]) (WsClose 0))) =
  TrainingEpisode (num 1).
Proof.
  rewrite (first_connection_loss_not_reported sim1
             [WsOpen 0; WsMessage 0 (Some (point 0)); WsMessage 0 (Some (point 1))]);
    reflexivity.
Defined.

(** ** The series *)

Lemma series_inv_handle : forall e w, series_inv w -> series_inv (handle e w).
Proof.
  intros e w (points & Hd & Hp). break_world w. cbn in Hd. subst w_data.
  unfold series_inv.
  destruct e; cbn; open_handlers; repeat (inner_case; cbn); eauto.
  match goal with |- context [points ++ [?v]] => exists (points ++ [v]) end.
  split; [reflexivity | ].
  rewrite forallb_app, Hp. cbn. unfold has_episode.
  match goal with H : get_prop _ "episode" = _ |- _ => rewrite H end. reflexivity.
Qed.

Lemma series_inv_connection_effect : forall w,
  series_inv w -> series_inv (connection_effect w).
Proof.
  intros w H. unfold connection_effect. destruct (truthy _); cbn; [ | exact H].
  exists []. destruct (ws (dashboard w)); split; reflexivity.
Qed.

Lemma series_inv_commit : forall before w, series_inv w -> series_inv (commit before w).
Proof.
  intros before w H. unfold commit.
  assert (Hc : series_inv (connection_effect (run_cleanup w))).
  { apply series_inv_connection_effect. unfold series_inv.
    destruct (run_cleanup_keeps w) as (_ & -> & _). exact H. }
  destruct (deps_changed _ _); destruct (Bool.eqb _ _); unfold series_inv;
    rewrite ?(proj2 (sockets_run_state_effect _)); assumption.
Qed.

(** X11: The series always starts with the placeholder point and every point
    after it is a received frame with an [episode] field, so the Total
    episodes figure, [data.length - 1], is the number of points received
    since the last reconnection and is never negative. *)
Theorem series_keeps_placeholder : forall w,
  reachable w ->
  exists points,
    data (dashboard w) = getInitialData ++ points /\
    forallb has_episode points = true /\
    total_episodes (data (dashboard w)) = Z.of_nat (List.length points).
Proof.
  intros w (simulation & es & ->).
  assert (H : series_inv (run (mount simulation) es)).
  { assert (H0 : series_inv (mount simulation)).
    { unfold mount, series_inv.
      rewrite (proj2 (sockets_run_state_effect _)).
      apply series_inv_connection_effect. exists []. split; reflexivity. }
    revert H0. generalize (mount simulation).
    induction es as [ | e es IH]; intros w0 H0; [exact H0 | ].
    rewrite run_cons. apply IH. unfold step. apply series_inv_commit, series_inv_handle, H0. }
  destruct H as (points & Hd & Hp). exists points. repeat split; try assumption.
  unfold total_episodes. rewrite Hd, length_app. cbn. lia.
Qed.

Lemma series_keeps_placeholder_witness :
  exists points,
    data (dashboard training) = getInitialData ++ points /\
    forallb has_episode points = true /\
    total_episodes (data (dashboard training)) = Z.of_nat (List.length points).
Proof.
  apply (series_keeps_placeholder training).
  exists sim1, [WsOpen 0; WsMessage 0 (Some (point 0)); WsMessage 0 (Some (point 1))].
  vm_compute. reflexivity.
Defined.

(** ** [handleRefineSubmit]: the other ways a call ends *)

Lemma get_prop_null : forall v k k', get_prop v k = None -> get_prop v k' = None.
Proof. intros [ | | | | | ] k k' H; try discriminate H; reflexivity. Qed.

Lemma plan_settled_failed : forall w cur sim box n reqs r,
  refine_state w = (cur, true, (box, [mkPending n AwaitPlan sim], reqs)) ->
  plan_fails r = true ->
  refine_state (step w (FetchSettled n r)) = (cur, false, (box, [], reqs)).
Proof.
  intros w cur sim box n reqs r H Hr. rewrite refine_state_step.
  break_world w. use_refine_state H.
  cbn. rewrite Nat.eqb_refl. cbn. unfold refine_planned.
  destruct r as [ | [ | ] [plan | ]]; try reflexivity.
  cbn in Hr. destruct (get_prop plan "edits"); [discriminate | reflexivity].
Qed.

Lemma apply_settled_failed : forall w cur sim box n reqs r,
  refine_state w = (cur, true, (box, [mkPending n AwaitApply sim], reqs)) ->
  apply_fails r = true ->
  refine_state (step w (FetchSettled n r)) = (cur, false, (box, [], reqs)).
Proof.
  intros w cur sim box n reqs r H Hr. rewrite refine_state_step.
  break_world w. use_refine_state H.
  cbn. rewrite Nat.eqb_refl. cbn. unfold refine_applied.
  destruct r as [ | [ | ] [body | ]]; try reflexivity.
  cbn in Hr. destruct (get_prop body "simulation_id"); [discriminate | reflexivity].
Qed.

Lemma apply_settled_ok : forall w cur sim box n reqs body id xml,
  refine_state w = (cur, true, (box, [mkPending n AwaitApply sim], reqs)) ->
  get_prop body "simulation_id" = Some id -> get_prop body "model_xml" = Some xml ->
  refine_state (step w (FetchSettled n (Responded true (Some body)))) =
    (mkSimulation id xml (xml_key sim), false, ("", [], reqs)) /\
  resetTrigger (layout (step w (FetchSettled n (Responded true (Some body))))) =
    (resetTrigger (layout w) + 1)%N.
Proof.
  intros w cur sim box n reqs body id xml H Hid Hxml.
  rewrite refine_state_step. unfold step. rewrite layout_commit.
  break_world w. use_refine_state H.
  cbn. rewrite Nat.eqb_refl. cbn. unfold refine_applied.
  rewrite Hid, Hxml. split; reflexivity.
Qed.

(** X12: A refine call whose plan request fails in any way (the fetch rejects,
    the answer is not 2xx, its body is not JSON or is [null]) issues no
    apply request, leaves the simulation alone, ends idle, and keeps the
    prompt in the box for another try. *)
Theorem failed_plan_keeps_prompt : forall w0 others r,
  reachable w0 -> isRefining (layout w0) = false ->
  input_value (browser w0) <> "" ->
  forallb quiet others = true -> plan_fails r = true ->
  let n := List.length (http (browser w0)) in
  let w := run w0 (SubmitRefine :: others ++ [FetchSettled n r]) in
  http (browser w) =
    http (browser w0) ++
      [PlanEdits (input_value (browser w0)) (xml_key (currentSim (layout w0)))] /\
  currentSim (layout w) = currentSim (layout w0) /\
  isRefining (layout w) = false /\
  pending (browser w) = [] /\
  input_value (browser w) = input_value (browser w0).
Proof.
  intros w0 others r Hreach Hidle Hbox Hq Hr n w. subst n.
  pose proof (idle_refine_state w0 Hreach Hidle) as H0.
  pose proof (submit_idle _ _ _ _ H0 Hbox) as H1.
  pose proof (quiet_refining others _ _ _ Hq H1) as H2.
  pose proof (plan_settled_failed _ _ _ _ _ _ r H2 Hr) as H3.
  assert (Hw : w = step (run (step w0 SubmitRefine) others)
                        (FetchSettled (List.length (http (browser w0))) r)).
  { unfold w. rewrite run_cons, run_app. reflexivity. }
  rewrite <- Hw in H3. unfold refine_state, refine_view in H3.
  injection H3 as -> -> -> -> ->. auto.
Qed.

Lemma failed_plan_keeps_prompt_witness :
  input_value (browser (run typed [SubmitRefine; ClickPause; FetchSettled 0 Rejected])) =
    "stronger legs" /\
  isRefining (layout (run typed [SubmitRefine; ClickPause; FetchSettled 0 Rejected])) = false.
Proof.
  destruct (failed_plan_keeps_prompt typed [ClickPause] Rejected) as (_ & _ & Hr & _ & Hi).
  - exists sim1, [UserType "stronger legs"]. reflexivity.
  - reflexivity.
  - vm_compute. discriminate.
  - reflexivity.
  - reflexivity.
  - split; [exact Hi | exact Hr].
Defined.

(** X13: The same for the apply request, for every way it can fail, a rejected
    fetch and an unreadable or [null] body included: the simulation is
    the one before the call and the prompt stays in the box. *)
Theorem failed_apply_keeps_prompt : forall w0 others1 plan edits others2 r,
  reachable w0 -> isRefining (layout w0) = false ->
  input_value (browser w0) <> "" ->
  forallb quiet others1 = true -> forallb quiet others2 = true ->
  get_prop plan "edits" = Some edits -> no_edits edits = false ->
  apply_fails r = true ->
  let n := List.length (http (browser w0)) in
  let w := run w0 (SubmitRefine :: others1 ++
                   FetchSettled n (Responded true (Some plan)) :: others2 ++
                   [FetchSettled (S n) r]) in
  currentSim (layout w) = currentSim (layout w0) /\
  isRefining (layout w) = false /\
  pending (browser w) = [] /\
  input_value (browser w) = input_value (browser w0).
Proof.
  intros w0 others1 plan edits others2 r Hreach Hidle Hbox Hq1 Hq2 Hget Hno Hr n w.
  subst n.
  pose proof (idle_refine_state w0 Hreach Hidle) as H0.
  pose proof (submit_idle _ _ _ _ H0 Hbox) as H1.
  pose proof (quiet_refining others1 _ _ _ Hq1 H1) as H2.
  pose proof (plan_settled_edits _ _ _ _ _ _ _ _ H2 Hget Hno) as H3.
  pose proof (quiet_refining others2 _ _ _ Hq2 H3) as H4.
  rewrite length_app in H4. cbn [List.length] in H4.
  replace (List.length (http (browser w0)) + 1)
    with (S (List.length (http (browser w0)))) in H4 by lia.
  pose proof (apply_settled_failed _ _ _ _ _ _ r H4 Hr) as H5.
  assert (Hw : w = step (run (step (run (step w0 SubmitRefine) others1)
                                   (FetchSettled (List.length (http (browser w0)))
                                                 (Responded true (Some plan))))
                             others2)
                        (FetchSettled (S (List.length (http (browser w0)))) r)).
  { unfold w. rewrite run_cons, run_app, run_cons, run_app. reflexivity. }
  rewrite <- Hw in H5. unfold refine_state, refine_view in H5.
  injection H5 as -> -> -> -> _. auto.
Qed.

Lemma failed_apply_keeps_prompt_witness :
  currentSim (layout (run typed
     [SubmitRefine; FetchSettled 0 (Responded true (Some (plan_of [JStr "edit"])));
      FetchSettled 1 (Responded true (Some JNull))])) = sim1.
Proof.
  destruct (failed_apply_keeps_prompt typed [] (plan_of [JStr "edit"])
              (Some (JArr [JStr "edit"])) [] (Responded true (Some JNull)))
    as (Hs & _).
  - exists sim1, [UserType "stronger legs"]. reflexivity.
  - reflexivity.
  - vm_compute. discriminate.
  - reflexivity.
  - reflexivity.
  - reflexivity.
  - reflexivity.
  - reflexivity.
  - exact Hs.
Defined.

Lemma reachable_run : forall w es, reachable w -> reachable (run w es).
Proof.
  intros w es (simulation & es0 & ->). exists simulation, (es0 ++ es).
  rewrite run_app. reflexivity.
Qed.

(** X14: A refine call that succeeds replaces the session id and the document
    by those of the apply response, keeps the key, empties the box, ends
    idle, and reconnects: the series is back to its initial point and the
    [ws] ref holds a new, connecting socket for the new session id. *)
Theorem successful_refine_reconnects :
  forall w0 others1 plan edits others2 body id xml,
  reachable w0 -> isRefining (layout w0) = false ->
  input_value (browser w0) <> "" ->
  forallb quiet others1 = true -> forallb quiet others2 = true ->
  get_prop plan "edits" = Some edits -> no_edits edits = false ->
  get_prop body "simulation_id" = Some id -> get_prop body "model_xml" = Some xml ->
  truthy id = true ->
  let n := List.length (http (browser w0)) in
  let w := run w0 (SubmitRefine :: others1 ++
                   FetchSettled n (Responded true (Some plan)) :: others2 ++
                   [FetchSettled (S n) (Responded true (Some body))]) in
  currentSim (layout w) = mkSimulation id xml (xml_key (currentSim (layout w0))) /\
  isRefining (layout w) = false /\
  input_value (browser w) = "" /\
  pending (browser w) = [] /\
  data (dashboard w) = getInitialData /\
  exists i s, ws (dashboard w) = Some i /\ sockets (browser w) !! i = Some s /\
              url_id s = id /\ readyState s = CONNECTING.
Proof.
  intros w0 others1 plan edits others2 body id xml Hreach Hidle Hbox Hq1 Hq2
         Hget Hno Hid Hxml Htruthy n w. subst n.
  pose proof (idle_refine_state w0 Hreach Hidle) as H0.
  pose proof (submit_idle _ _ _ _ H0 Hbox) as H1.
  pose proof (quiet_refining others1 _ _ _ Hq1 H1) as H2.
  pose proof (plan_settled_edits _ _ _ _ _ _ _ _ H2 Hget Hno) as H3.
  pose proof (quiet_refining others2 _ _ _ Hq2 H3) as H4.
  rewrite length_app in H4. cbn [List.length] in H4.
  replace (List.length (http (browser w0)) + 1)
    with (S (List.length (http (browser w0)))) in H4 by lia.
  set (w4 := run (step (run (step w0 SubmitRefine) others1)
                       (FetchSettled (List.length (http (browser w0)))
                                     (Responded true (Some plan)))) others2) in *.
  set (e := FetchSettled (S (List.length (http (browser w0))))
                         (Responded true (Some body))) in *.
  destruct (apply_settled_ok _ _ _ _ _ _ body id xml H4 Hid Hxml) as [H5 Ht].
  fold e in H5, Ht.
  assert (Hw : w = step w4 e).
  { unfold w, w4, e. rewrite run_cons, run_app, run_cons, run_app. reflexivity. }
  assert (Hreach4 : reachable w4).
  { replace w4 with (run w0 (SubmitRefine :: others1 ++
        FetchSettled (List.length (http (browser w0))) (Responded true (Some plan))
        :: others2)).
    - apply reachable_run, Hreach.
    - unfold w4. rewrite run_cons, run_app, run_cons. reflexivity. }
  rewrite Hw. clear Hw w.
  assert (Hsim : currentSim (layout (step w4 e)) =
                 mkSimulation id xml (xml_key (currentSim (layout w0)))).
  { unfold refine_state in H5. congruence. }
  assert (Hdeps : deps_changed (layout w4) (layout (handle e w4)) = true).
  { unfold deps_changed. unfold step in Ht. rewrite layout_commit in Ht. rewrite Ht.
    replace (N.eqb _ _) with false; [apply orb_true_r | ].
    symmetry. apply N.eqb_neq. lia. }
  assert (Hid' : truthy (simulation_id (currentSim (layout (handle e w4)))) = true).
  { unfold step in Hsim. rewrite layout_commit in Hsim. rewrite Hsim. exact Htruthy. }
  assert (Hinv : sock_inv (handle e w4))
    by (apply sock_inv_handle, reachable_sock_inv, Hreach4).
  destruct (commit_reconnects (layout w4) (handle e w4) Hinv Hdeps Hid') as (Hd & _ & _).
  destruct (commit_connects (layout w4) (handle e w4) Hdeps Hid')
    as (i & s & Hws & Hs & Hurl & Hrs & _).
  unfold refine_state, refine_view in H5. injection H5 as _ Hr Hin Hp _.
  repeat split; try assumption.
  exists i, s. repeat split; try assumption.
  unfold step in Hsim. rewrite layout_commit in Hsim. rewrite Hurl, Hsim. reflexivity.
Qed.

Lemma successful_refine_reconnects_witness :
  currentSim (layout (run typed (applied_call "sim-2"))) =
    mkSimulation (Some (JStr "sim-2")) (Some (JStr "<mujoco2/>")) (Some (JStr "key-1")) /\
  data (dashboard (run typed (applied_call "sim-2"))) = getInitialData.
Proof.
  destruct (successful_refine_reconnects typed [] (plan_of [JStr "edit"])
              (Some (JArr [JStr "edit"])) [] (applied "sim-2" "<mujoco2/>" "key-2")
              (Some (JStr "sim-2")) (Some (JStr "<mujoco2/>")))
    as (Hs & _ & _ & _ & Hd & _).
  - exists sim1, [UserType "stronger legs"]. reflexivity.
  - reflexivity.
  - vm_compute. discriminate.
  - reflexivity.
  - reflexivity.
  - reflexivity.
  - reflexivity.
  - reflexivity.
  - reflexivity.
  - reflexivity.
  - split; [exact Hs | exact Hd].
Defined.

(** X15: The refine form is never blocked for good: while [isRefining] holds
    exactly one fetch is awaited, and however it settles the call either
    ends with [isRefining] false, or (a plan with edits) awaits its apply
    request, which ends the call however it settles in turn. *)
Theorem refine_never_stuck : forall w,
  reachable w -> isRefining (layout w) = true ->
  exists p, pending (browser w) = [p] /\
    forall r,
      let w1 := step w (FetchSettled (p_req p) r) in
      isRefining (layout w1) = false \/
      (p_stage p = AwaitPlan /\
       exists p', pending (browser w1) = [p'] /\ p_stage p' = AwaitApply /\
         forall r', isRefining (layout (step w1 (FetchSettled (p_req p') r'))) = false).
Proof.
  intros w Hreach Hr. apply reachable_refine_inv in Hreach. unfold refine_inv in Hreach.
  destruct (pending (browser w)) as [ | [n stage sim] [ | p' rest]] eqn:Hp;
    [congruence | | contradiction].
  exists (mkPending n stage sim). split; [reflexivity | ]. intros r. cbn.
  assert (H : refine_state w = (currentSim (layout w), true,
              (input_value (browser w), [mkPending n stage sim], http (browser w)))).
  { unfold refine_state, refine_view. rewrite Hr, Hp. reflexivity. }
  assert (Happly : forall w1 cur box m reqs r',
            refine_state w1 = (cur, true, (box, [mkPending m AwaitApply sim], reqs)) ->
            isRefining (layout (step w1 (FetchSettled m r'))) = false).
  { intros w1 cur box m reqs r' H1.
    destruct (apply_fails r') eqn:Hf.
    - pose proof (apply_settled_failed _ _ _ _ _ _ r' H1 Hf) as H2.
      unfold refine_state in H2. congruence.
    - destruct r' as [ | [ | ] [body | ]]; try discriminate Hf. cbn in Hf.
      destruct (get_prop body "simulation_id") as [id | ] eqn:Hid; [ | discriminate].
      destruct (get_prop body "model_xml") as [xml | ] eqn:Hxml.
      + destruct (apply_settled_ok _ _ _ _ _ _ body id xml H1 Hid Hxml) as [H2 _].
        unfold refine_state in H2. congruence.
      + rewrite (get_prop_null _ _ "simulation_id" Hxml) in Hid. discriminate. }
  destruct stage.
  - destruct (plan_fails r) eqn:Hf.
    + left. pose proof (plan_settled_failed _ _ _ _ _ _ r H Hf) as H2.
      unfold refine_state in H2. congruence.
    + destruct r as [ | [ | ] [plan | ]]; try discriminate Hf. cbn in Hf.
      destruct (get_prop plan "edits") as [edits | ] eqn:Hget; [ | discriminate].
      destruct (no_edits edits) eqn:Hno.
      * left. pose proof (plan_settled_empty _ _ _ _ _ _ _ _ H Hget Hno) as H2.
        unfold refine_state in H2. congruence.
      * right. split; [reflexivity | ].
        pose proof (plan_settled_edits _ _ _ _ _ _ _ _ H Hget Hno) as H2.
        exists (mkPending (List.length (http (browser w))) AwaitApply sim).
        split; [ | split; [reflexivity | ]].
        -- unfold refine_state, refine_view in H2. injection H2 as _ _ _ Hp2 _.
           exact Hp2.
        -- intros r'. cbn. eapply Happly. exact H2.
  - left. eapply Happly. exact H.
Qed.

Lemma refine_never_stuck_witness :
  exists p, pending (browser refining) = [p] /\
    forall r,
      let w1 := step refining (FetchSettled (p_req p) r) in
      isRefining (layout w1) = false \/
      (p_stage p = AwaitPlan /\
       exists p', pending (browser w1) = [p'] /\ p_stage p' = AwaitApply /\
         forall r', isRefining (layout (step w1 (FetchSettled (p_req p') r'))) = false).
Proof.
  apply (refine_never_stuck refining).
  - exists sim1, [UserType "stronger legs"; SubmitRefine]. reflexivity.
  - reflexivity.
Defined.

(** ** The order of the requests *)

Lemma paired_snoc_plan : forall l prompt key,
  paired l -> paired (l ++ [PlanEdits prompt key]).
Proof.
  intros l prompt key H i k e Hi.
  destruct (decide (i < List.length l)) as [Hlt | Hge].
  - rewrite lookup_app_l in Hi by exact Hlt.
    destruct (H i k e Hi) as (Hno & j & p & -> & Hj).
    split; [exact Hno | ]. exists j, p. split; [reflexivity | ].
    apply lookup_app_l_Some, Hj.
  - rewrite lookup_app_r in Hi by lia.
    destruct (i - List.length l) as [ | m]; cbn in Hi; discriminate.
Qed.

Lemma paired_snoc_apply : forall l prompt key edits,
  paired l -> last l = Some (PlanEdits prompt key) -> no_edits edits = false ->
  paired (l ++ [ApplyEdits key edits]).
Proof.
  intros l prompt key edits H Hlast Hno i k e Hi.
  destruct (decide (i < List.length l)) as [Hlt | Hge].
  - rewrite lookup_app_l in Hi by exact Hlt.
    destruct (H i k e Hi) as (Hno' & j & p & -> & Hj).
    split; [exact Hno' | ]. exists j, p. split; [reflexivity | ].
    apply lookup_app_l_Some, Hj.
  - rewrite lookup_app_r in Hi by lia.
    destruct (i - List.length l) as [ | m] eqn:Hm; cbn in Hi; [ | discriminate].
    injection Hi as <- <-. split; [exact Hno | ].
    rewrite last_lookup in Hlast.
    assert (Hlen : i = List.length l) by lia.
    destruct (List.length l) as [ | m] eqn:Hl.
    { destruct l; [discriminate Hlast | discriminate Hl]. }
    exists m, prompt. split; [exact Hlen | ].
    apply lookup_app_l_Some. exact Hlast.
Qed.

Lemma log_inv_handle : forall e w, log_inv w -> log_inv (handle e w).
Proof.
  intros e w. break_world w. unfold log_inv. cbn.
  intros [Hpaired Hp].
  destruct w_pending as [ | p [ | p' rest]]; [ | | contradiction].
  - subst w_refining.
    destruct e; cbn; open_handlers; repeat (inner_case; cbn); auto.
    split; [apply paired_snoc_plan, Hpaired | ].
    split; [reflexivity | ]. intros _. eexists. apply last_snoc.
  - destruct Hp as [-> Hlast].
    destruct e; cbn; open_handlers; rewrite ?orb_true_r; cbn;
      repeat (inner_case; cbn); auto.
    split; [ | split; [reflexivity | discriminate]].
    destruct p as [n stage sim]. cbn in *. subst stage.
    destruct (Hlast eq_refl) as [prompt Hl].
    eapply paired_snoc_apply; eauto.
Qed.

Lemma log_inv_step : forall w e, log_inv w -> log_inv (step w e).
Proof.
  intros w e H. apply (log_inv_handle e w) in H. revert H.
  unfold step, log_inv.
  pose proof (refine_view_commit (layout w) (handle e w)) as Hv.
  unfold refine_view in Hv. injection Hv as _ Hp Hh.
  rewrite Hp, Hh, layout_commit. auto.
Qed.

Lemma log_inv_mount : forall simulation, log_inv (mount simulation).
Proof.
  intros simulation. unfold log_inv, mount.
  match goal with |- context [run_state_effect ?w] =>
    pose proof (refine_view_run_state_effect w) as H1;
    rewrite (layout_run_state_effect w) end.
  match goal with |- context [connection_effect ?w] =>
    pose proof (refine_view_connection_effect w) as H2;
    rewrite (layout_connection_effect w) end.
  unfold refine_view in H1, H2.
  injection H1 as _ -> ->. injection H2 as _ -> ->. cbn.
  split; [ | reflexivity]. intros i k e Hi. discriminate Hi.
Qed.

(** X16: Every apply request ever issued stands right after a plan request
    that carried the same key, and the edits it carries passed the
    emptiness test: nothing is applied that was not planned just before. *)
Theorem apply_follows_its_plan : forall w i key edits,
  reachable w -> http (browser w) !! i = Some (ApplyEdits key edits) ->
  no_edits edits = false /\
  exists j prompt, i = S j /\ http (browser w) !! j = Some (PlanEdits prompt key).
Proof.
  intros w i key edits (simulation & es & ->).
  assert (H : log_inv (run (mount simulation) es)).
  { generalize (log_inv_mount simulation). generalize (mount simulation).
    induction es as [ | e es IH]; intros w0 H0; [exact H0 | ].
    rewrite run_cons. apply IH, log_inv_step, H0. }
  destruct H as [Hpaired _]. apply Hpaired.
Qed.

Lemma apply_follows_its_plan_witness :
  no_edits (Some (JArr [JStr "edit"])) = false /\
  exists j prompt, 1 = S j /\
    http (browser (run typed refused_call)) !! j = Some (PlanEdits prompt (Some (JStr "key-1"))).
Proof.
  apply (apply_follows_its_plan (run typed refused_call) 1).
  - exists sim1, (UserType "stronger legs" :: refused_call). vm_compute. reflexivity.
  - reflexivity.
Defined.

(** ** [ChatbotEntry] and [Home] *)

Section ChatFacts.

Variable trim : string -> string.

Lemma app_run_cons : forall a e es,
  app_run trim a (e :: es) = app_run trim (app_step trim a e) es.
Proof. reflexivity. Qed.

Lemma app_run_app : forall es1 es2 a,
  app_run trim a (es1 ++ es2) = app_run trim (app_run trim a es1) es2.
Proof. intros es1 es2 a. unfold app_run. apply fold_left_app. Qed.

(** While the generate request is out, nothing but its settling is
    delivered to the page. *)
Lemma loading_ignores : forall others c gen,
  forallb (fun e => negb (is_generate_settled e)) others = true ->
  isLoading c = true ->
  app_run trim (mkApp (ChatbotPage c true) gen) others = mkApp (ChatbotPage c true) gen.
Proof.
  induction others as [ | e es IH]; intros c gen Hes Hc; [reflexivity | ].
  simpl in Hes. apply andb_true_iff in Hes as [He Hes].
  rewrite app_run_cons.
  replace (app_step trim (mkApp (ChatbotPage c true) gen) e)
    with (mkApp (ChatbotPage c true) gen).
  - apply IH; assumption.
  - destruct e; try discriminate He; cbn; rewrite ?Hc; reflexivity.
Qed.

(** X17: One generate call: a prompt that is not blank is posted once, as
    typed, whatever is attempted while the request is out; and however the
    request settles, either the layout is mounted on the truthy body of a
    2xx answer, or the chatbot entry is back with the prompt kept and the
    form enabled again. *)
Theorem generate_call_outcome : forall c gen others r,
  isLoading c = false -> trim (chat_prompt c) <> "" ->
  forallb (fun e => negb (is_generate_settled e)) others = true ->
  let a := app_run trim (mkApp (ChatbotPage c false) gen)
             (ChatSubmit :: others ++ [GenerateSettled r]) in
  generated a = gen ++ [chat_prompt c] /\
  match page a with
  | ChatbotPage c' awaiting =>
      chat_prompt c' = chat_prompt c /\ isLoading c' = false /\ awaiting = false
  | SimulationPage w =>
      exists statusText v,
        r = GenerateResponded true statusText (Some v) /\
        truthy (Some v) = true /\ w = mount (simulation_of v)
  end.
Proof.
  intros c gen others r Hidle Hprompt Hothers a. subst a.
  apply String.eqb_neq in Hprompt.
  rewrite app_run_cons. cbn [app_step page]. rewrite Hidle.
  unfold handleSubmit. rewrite Hprompt. cbn [generated].
  rewrite app_run_app.
  rewrite (loading_ignores others (mkChatbotEntry (chat_prompt c) true NoErrorText)
             (gen ++ [chat_prompt c]) Hothers eq_refl).
  cbn [app_run fold_left app_step page generated]. split; [reflexivity | ].
  unfold generate_settled, generate_failed.
  destruct r as [ | [ | ] statusText [body | ]]; cbn [chat_prompt isLoading]; auto.
  - destruct (truthy (Some body)) eqn:Ht; cbn [chat_prompt isLoading]; auto.
    exists statusText, body. auto.
  - destruct (get_prop body "detail"); cbn [chat_prompt isLoading]; auto.
Qed.

(** X18: A non-2xx answer with a JSON body shows the body's [detail], or the
    status text when [detail] is missing or falsy; submitting again posts
    the prompt once more and clears the message while the request is
    out. *)
Theorem generate_api_error_then_retry : forall c gen statusText err detail,
  isLoading c = false -> trim (chat_prompt c) <> "" ->
  get_prop err "detail" = Some detail ->
  let failed := app_run trim (mkApp (ChatbotPage c false) gen)
                  [ChatSubmit; GenerateSettled (GenerateResponded false statusText (Some err))] in
  failed = mkApp (ChatbotPage (mkChatbotEntry (chat_prompt c) false
                                 (ApiError (js_or detail (JStr statusText)))) false)
                 (gen ++ [chat_prompt c]) /\
  app_step trim failed ChatSubmit =
    mkApp (ChatbotPage (mkChatbotEntry (chat_prompt c) true NoErrorText) true)
          (gen ++ [chat_prompt c; chat_prompt c]).
Proof.
  intros c gen statusText err detail Hidle Hprompt Hdetail failed. subst failed.
  apply String.eqb_neq in Hprompt.
  cbn. rewrite Hidle. unfold handleSubmit. rewrite Hprompt. cbn.
  rewrite Hdetail. cbn. unfold handleSubmit. cbn. rewrite Hprompt.
  rewrite <- app_assoc. split; reflexivity.
Qed.

(** X19: A 2xx answer whose body is a falsy value ([null], [0], [false], the
    empty string) passes for a success and shows nothing: no layout, no
    error message, and the form is enabled again. *)
Theorem generate_falsy_body_is_silent : forall c gen statusText v,
  isLoading c = false -> trim (chat_prompt c) <> "" ->
  truthy (Some v) = false ->
  app_run trim (mkApp (ChatbotPage c false) gen)
    [ChatSubmit; GenerateSettled (GenerateResponded true statusText (Some v))] =
  mkApp (ChatbotPage (mkChatbotEntry (chat_prompt c) false NoErrorText) false)
        (gen ++ [chat_prompt c]).
Proof.
  intros c gen statusText v Hidle Hprompt Hv.
  apply String.eqb_neq in Hprompt.
  cbn. rewrite Hidle. unfold handleSubmit. rewrite Hprompt. cbn.
  fold (truthy (Some v)). rewrite Hv. reflexivity.
Qed.

Lemma in_simulation_run : forall es w gen,
  app_run trim (mkApp (SimulationPage w) gen) (map InSimulation es) =
    mkApp (SimulationPage (run w es)) gen.
Proof.
  induction es as [ | e es IH]; intros w gen; [reflexivity | ].
  cbn [map]. rewrite app_run_cons. cbn. rewrite IH. reflexivity.
Qed.

(** X20: The generated simulation is the one the layout works with: whatever
    happens in the layout afterwards, every plan and apply request carries
    the [xml_key] of the generate response, and the first socket was opened
    for its [simulation_id]. *)
Theorem generated_simulation_drives_layout : forall c gen statusText v es,
  isLoading c = false -> trim (chat_prompt c) <> "" ->
  truthy (Some v) = true -> truthy (field v "simulation_id") = true ->
  let a := app_run trim (mkApp (ChatbotPage c false) gen)
             (ChatSubmit :: GenerateSettled (GenerateResponded true statusText (Some v))
                         :: map InSimulation es) in
  exists w, page a = SimulationPage w /\
    w = run (mount (simulation_of v)) es /\
    Forall (fun r => request_key r = field v "xml_key") (http (browser w)) /\
    exists s, sockets (browser w) !! 0 = Some s /\ url_id s = field v "simulation_id".
Proof.
  intros c gen statusText v es Hidle Hprompt Hv Hid a. subst a.
  apply String.eqb_neq in Hprompt.
  rewrite !app_run_cons. cbn [app_step page]. rewrite Hidle.
  unfold handleSubmit. rewrite Hprompt. cbn [app_step page generate_settled generated].
  rewrite Hv, in_simulation_run. cbn [page].
  exists (run (mount (simulation_of v)) es). split; [reflexivity | split; [reflexivity | ]].
  split.
  - destruct (key_inv_run _ es _ (key_inv_mount (simulation_of v))) as (_ & _ & Hh).
    exact Hh.
  - assert (H0 : exists s0, sockets (browser (mount (simulation_of v))) !! 0 = Some s0 /\
                            url_id s0 = field v "simulation_id").
    { unfold mount. rewrite (proj1 (sockets_run_state_effect _)).
      unfold connection_effect. cbn. rewrite Hid. cbn. eauto. }
    destruct H0 as (s0 & Hs0 & Hurl0).
    destruct (closure_run es _ 0 s0 Hs0) as (s & Hs & Hurl & _).
    exists s. split; [exact Hs | congruence].
Qed.

End ChatFacts.

Lemma generate_call_outcome_witness :
  generated (app_run trim_ascii (mkApp (ChatbotPage walker_prompt false) [])
               [ChatSubmit; ChatType "other"; ChatSubmit;
                GenerateSettled GenerateRejected]) = ["  a bipedal walker "].
Proof.
  destruct (generate_call_outcome trim_ascii walker_prompt [] [ChatType "other"; ChatSubmit]
              GenerateRejected) as [Hg _].
  - reflexivity.
  - vm_compute. discriminate.
  - reflexivity.
  - exact Hg.
Defined.

Lemma generate_api_error_then_retry_witness :
  app_run trim_ascii (mkApp (ChatbotPage walker_prompt false) [])
    [ChatSubmit;
     GenerateSettled (GenerateResponded false "Bad Request"
                        (Some (JObj [("detail", JStr "prompt too vague")])))] =
  mkApp (ChatbotPage (mkChatbotEntry "  a bipedal walker " false
                        (ApiError (JStr "prompt too vague"))) false)
        ["  a bipedal walker "].
Proof.
  destruct (generate_api_error_then_retry trim_ascii walker_prompt [] "Bad Request"
              (JObj [("detail", JStr "prompt too vague")])
              (Some (JStr "prompt too vague"))) as [Hf _].
  - reflexivity.
  - vm_compute. discriminate.
  - reflexivity.
  - exact Hf.
Defined.

Lemma generate_falsy_body_is_silent_witness :
  app_run trim_ascii (mkApp (ChatbotPage walker_prompt false) [])
    [ChatSubmit; GenerateSettled (GenerateResponded true "OK" (Some JNull))] =
  mkApp (ChatbotPage (mkChatbotEntry "  a bipedal walker " false NoErrorText) false)
        ["  a bipedal walker "].
Proof.
  apply (generate_falsy_body_is_silent trim_ascii walker_prompt [] "OK" JNull).
  - reflexivity.
  - vm_compute. discriminate.
  - reflexivity.
Defined.

Lemma generated_simulation_drives_layout_witness :
  exists w,
    page (app_run trim_ascii (mkApp (ChatbotPage walker_prompt false) [])
            (ChatSubmit :: GenerateSettled (GenerateResponded true "OK" (Some generated_body))
                        :: map InSimulation [UserType "stronger legs"; SubmitRefine])) =
      SimulationPage w /\
    w = run (mount (simulation_of generated_body)) [UserType "stronger legs"; SubmitRefine] /\
    Forall (fun r => request_key r = field generated_body "xml_key") (http (browser w)) /\
    exists s, sockets (browser w) !! 0 = Some s /\
              url_id s = field generated_body "simulation_id".
Proof.
  apply (generated_simulation_drives_layout trim_ascii walker_prompt [] "OK" generated_body
           [UserType "stronger legs"; SubmitRefine]).
  - reflexivity.
  - vm_compute. discriminate.
  - reflexivity.
  - reflexivity.
Defined.

(** ** [LLMPanel] *)

Lemma panel_run_cons : forall p e es,
  panel_run p (e :: es) = panel_run (panel_step p e) es.
Proof. reflexivity. Qed.

Lemma panel_run_app : forall es1 es2 p,
  panel_run p (es1 ++ es2) = panel_run (panel_run p es1) es2.
Proof. intros es1 es2 p. unfold panel_run. apply fold_left_app. Qed.

Lemma panel_updating_ignores : forall others text log sent,
  forallb (fun e => negb (is_panel_settled e)) others = true ->
  panel_run (mkLLMPanel text true true sent log) others =
    mkLLMPanel (last_typed text others) true true sent log.
Proof.
  induction others as [ | e es IH]; intros text log sent Hes; [reflexivity | ].
  simpl in Hes. apply andb_true_iff in Hes as [He Hes].
  rewrite panel_run_cons.
  destruct e; try discriminate He; cbn; apply IH; exact Hes.
Qed.

(** X21: One update of the system prompt: the prompt posted is the one in the
    textarea when the button was clicked, clicks while the request is out
    post nothing, what is typed meanwhile stays in the textarea, and the
    button is enabled again however the request ends. *)
Theorem prompt_update_cycle : forall p others r,
  isUpdating p = false -> updating p = false ->
  forallb (fun e => negb (is_panel_settled e)) others = true ->
  let p' := panel_run p (PanelClick :: others ++ [PanelSettled r]) in
  posted p' = posted p ++ [llm_prompt p] /\
  llm_prompt p' = last_typed (llm_prompt p) others /\
  isUpdating p' = false /\
  panel_console p' = panel_console p ++ update_log r.
Proof.
  intros [text u a sent log] others r Hu Ha Hothers p'. cbn in Hu, Ha. subst u a p'.
  rewrite panel_run_cons. cbn [panel_step isUpdating llm_prompt posted panel_console].
  rewrite panel_run_app, (panel_updating_ignores others _ _ _ Hothers).
  cbn. auto.
Qed.

Lemma prompt_update_cycle_witness :
  posted (panel_run panel_start
            [PanelClick; PanelType "Be bold."; PanelClick; PanelSettled Rejected]) =
    ["You are an RL agent optimizing a humanoid walker..."] /\
  llm_prompt (panel_run panel_start
            [PanelClick; PanelType "Be bold."; PanelClick; PanelSettled Rejected]) =
    "Be bold.".
Proof.
  destruct (prompt_update_cycle panel_start [PanelType "Be bold."; PanelClick] Rejected)
    as (Hp & Ht & _); try reflexivity.
  split; [exact Hp | exact Ht].
Defined.

(** X22: The update is reported as a success exactly when the answer is 2xx
    and its [status] is the boolean [true]; a truthy status such as 1 or
    the string true is not. *)
Theorem prompt_update_logged_iff_true : forall r,
  update_log r = [LogPromptUpdated] <->
  exists body, r = Responded true (Some body) /\
               get_prop body "status" = Some (Some (JBool true)).
Proof.
  intros r. split.
  - destruct r as [ | [ | ] [body | ]]; cbn; try discriminate.
    destruct (get_prop body "status") as [[[ | [ | ] | | | | ] | ] | ] eqn:Hs;
      cbn; try discriminate.
    intros _. exists body. auto.
  - intros (body & -> & Hs). cbn. rewrite Hs. reflexivity.
Qed.
